(** * A research-assistant agent: retrieval and response pipeline

    Shallow embedding of [src/core/simple_agent.py]: the tokenizer, the
    corpus loader, the keyword retriever, the source summarizer and the
    three graph nodes (planner, researcher, responder) together with the
    graph that sequences them.

    Python strings are modelled as [string]; a character is a code point
    in the range 0..255, classified the way CPython classifies it
    ([str.isspace], the [\w] and [\s] classes of [re], [str.lower]). *)

From Stdlib Require Import String Ascii List Arith Lia DecimalString.
From stdpp Require Import base list gmap strings.
Import ListNotations.

Local Open Scope string_scope.
Local Open Scope nat_scope.
Local Open Scope list_scope.

(** ** Python string builtins *)

Module Py.

(** [str.isspace] on one character; the same table decides [\s] of [re],
    [str.strip] and [str.split] without argument. *)
Definition isspace (c : ascii) : bool :=
  let n := nat_of_ascii c in
  ((9 <=? n) && (n <=? 13)) || ((28 <=? n) && (n <=? 32))
  || (n =? 133) || (n =? 160).

(** [str.isalnum] on one character. *)
Definition isalnum (c : ascii) : bool :=
  let n := nat_of_ascii c in
  ((48 <=? n) && (n <=? 57)) || ((65 <=? n) && (n <=? 90))
  || ((97 <=? n) && (n <=? 122))
  || (n =? 170) || (n =? 178) || (n =? 179) || (n =? 181)
  || (n =? 185) || (n =? 186) || ((188 <=? n) && (n <=? 190))
  || ((192 <=? n) && (n <=? 214)) || ((216 <=? n) && (n <=? 246))
  || (248 <=? n).

(** The class [\w] of [re] on a [str] pattern. *)
Definition isword (c : ascii) : bool :=
  isalnum c || (nat_of_ascii c =? 95).

Definition lower_char (c : ascii) : ascii :=
  let n := nat_of_ascii c in
  if ((65 <=? n) && (n <=? 90)) || ((192 <=? n) && (n <=? 214))
     || ((216 <=? n) && (n <=? 222))
  then ascii_of_nat (n + 32) else c.

(** [str.lower]. *)
Fixpoint lower (s : string) : string :=
  match s with
  | EmptyString => EmptyString
  | String c s' => String (lower_char c) (lower s')
  end.

(** [re.sub(cls, "", s)] for a one-character class [cls]: every character
    that [drop] accepts is deleted. *)
Fixpoint re_delete (drop : ascii -> bool) (s : string) : string :=
  match s with
  | EmptyString => EmptyString
  | String c s' =>
      if drop c then re_delete drop s' else String c (re_delete drop s')
  end.

Fixpoint lstrip (s : string) : string :=
  match s with
  | EmptyString => EmptyString
  | String c s' => if isspace c then lstrip s' else s
  end.

Fixpoint rstrip (s : string) : string :=
  match s with
  | EmptyString => EmptyString
  | String c s' =>
      match rstrip s' with
      | EmptyString => if isspace c then EmptyString else String c EmptyString
      | r => String c r
      end
  end.

(** [str.strip()]. *)
Definition strip (s : string) : string := lstrip (rstrip s).

(** Truth value of a [str] and of a [list]. *)
Definition truthy (s : string) : bool :=
  match s with EmptyString => false | String _ _ => true end.

Definition nonempty {A} (l : list A) : bool :=
  match l with [] => false | _ :: _ => true end.

Definition push_word (w : string) (ws : list string) : list string :=
  if truthy w then w :: ws else ws.

(** Scan for [str.split()]: the word being read at the head of [s] and the
    words after it. *)
Fixpoint split_ws_go (s : string) : string * list string :=
  match s with
  | EmptyString => (EmptyString, [])
  | String c s' =>
      let '(w, ws) := split_ws_go s' in
      if isspace c then (EmptyString, push_word w ws) else (String c w, ws)
  end.

(** [str.split()] without argument: the maximal runs of characters that
    are not whitespace. *)
Definition split_ws (s : string) : list string :=
  let '(w, ws) := split_ws_go s in push_word w ws.

(** [str.startswith]. *)
Definition startswith (s p : string) : bool := String.prefix p s.

(** [p in s] for strings. *)
Fixpoint contains (p s : string) : bool :=
  String.prefix p s ||
  match s with
  | EmptyString => false
  | String _ s' => contains p s'
  end.

(** [s.replace(old, new)] for a non-empty [old]: the occurrences of [old]
    are found left to right and do not overlap; [skip] counts the
    characters of the occurrence just matched that are still to be
    passed over. *)
Fixpoint replace_go (old new : string) (skip : nat) (s : string) : string :=
  match s with
  | EmptyString => EmptyString
  | String c s' =>
      match skip with
      | S k => replace_go old new k s'
      | O =>
          if String.prefix old s
          then new +:+ replace_go old new (String.length old - 1) s'
          else String c (replace_go old new 0 s')
      end
  end.

Definition replace (s old new : string) : string := replace_go old new 0 s.

(** [s.split(sep)] for a non-empty [sep]: the block at the head of [s]
    and the blocks after it. Separators are found left to right and do
    not overlap. *)
Fixpoint split_go (sep : string) (skip : nat) (s : string)
  : string * list string :=
  match s with
  | EmptyString => (EmptyString, [])
  | String c s' =>
      match skip with
      | S k => split_go sep k s'
      | O =>
          if String.prefix sep s
          then let '(b, bs) := split_go sep (String.length sep - 1) s' in
               (EmptyString, b :: bs)
          else let '(b, bs) := split_go sep 0 s' in (String c b, bs)
      end
  end.

Definition split (s sep : string) : list string :=
  let '(b, bs) := split_go sep 0 s in b :: bs.

(** [sep.join(l)]. *)
Definition join (sep : string) (l : list string) : string :=
  String.concat sep l.

(** The slice [s[n:]]. *)
Fixpoint slice_from (n : nat) (s : string) : string :=
  match n, s with
  | O, _ => s
  | S _, EmptyString => EmptyString
  | S n', String _ s' => slice_from n' s'
  end.

(** [str(n)] for a non-negative [int]. *)
Definition str_of_nat (n : nat) : string :=
  NilEmpty.string_of_uint (Nat.to_uint n).

End Py.

(** The line feed, ["\n"]. *)
Definition nl : string := String (ascii_of_nat 10) EmptyString.

(** ** State definition *)

Record AgentState := mkState {
  conversation_history : list string;
  current_query : string;
  retrieved_sources : list string;
  final_answer : string;
  error : string
}.

Definition set_current_query (v : string) (state : AgentState) : AgentState :=
  mkState (conversation_history state) v (retrieved_sources state)
          (final_answer state) (error state).

Definition set_retrieved_sources (v : list string) (state : AgentState)
  : AgentState :=
  mkState (conversation_history state) (current_query state) v
          (final_answer state) (error state).

Definition set_final_answer (v : string) (state : AgentState) : AgentState :=
  mkState (conversation_history state) (current_query state)
          (retrieved_sources state) v (error state).

Definition set_error (v : string) (state : AgentState) : AgentState :=
  mkState (conversation_history state) (current_query state)
          (retrieved_sources state) (final_answer state) v.

Definition set_conversation_history (v : list string) (state : AgentState)
  : AgentState :=
  mkState v (current_query state) (retrieved_sources state)
          (final_answer state) (error state).

(** ** Exceptions

    [exn] stands for an instance of the class [Exception] (the class the
    handler of [researcher_node] names), carrying its [str(e)]. Signals
    that derive from [BaseException] only (interpreter exit, keyboard
    interrupt) are outside the model. *)

Inductive exn : Type := Exception (msg : string).

Definition str_of_exn (e : exn) : string :=
  match e with Exception msg => msg end.

Inductive outcome (A : Type) : Type :=
| Returned (a : A)
| Raised (e : exn).

Arguments Returned {A} a.
Arguments Raised {A} e.

(** ** Utility functions *)

(** The characters [re.sub(r"[^\w\s]", "", text)] deletes. *)
Definition not_word_or_space (c : ascii) : bool :=
  negb (Py.isword c || Py.isspace c).

Definition tokenize (text : string) : gset string :=
  let text := Py.lower text in
  let text := Py.re_delete not_word_or_space text in
  list_to_set (Py.split_ws text).

(** ** Source loading *)

(** What [open(file_path, "r", encoding="utf-8")] followed by [f.read()]
    gives for a path: the text of the file, [FileNotFoundError], or some
    other exception. *)
Inductive read_result : Type :=
| FileText (text : string)
| FileNotFound
| ReadFailed (e : exn).

Definition block_separator : string := nl +:+ "---" +:+ nl.

(** [default_path] is the path [load_sources] builds from the location of
    the script when it gets no [file_path]. *)
Definition load_sources (fs : string -> read_result) (default_path : string)
    (file_path : option string) : outcome (list string) :=
  let file_path :=
    match file_path with None => default_path | Some p => p end in
  match fs file_path with
  | FileText text => Returned (Py.split text block_separator)
  | FileNotFound => Returned []
  | ReadFailed e => Raised e
  end.

(** ** Tool: soft search *)

(** Truth value of [query_tokens & block_tokens]. *)
Definition overlap (query_tokens block_tokens : gset string) : bool :=
  bool_decide (query_tokens ∩ block_tokens ≠ ∅).

Definition search_step (query_tokens : gset string)
    (matches : list string) (block : string) : list string :=
  let block_tokens := tokenize block in
  if overlap query_tokens block_tokens
  then (matches ++ [Py.strip block])%list
  else matches.

(** [SOURCES] is the module-level corpus, loaded once. *)
Definition search_sources (SOURCES : list string) (query : string)
  : list string :=
  let query_tokens := tokenize query in
  fold_left (search_step query_tokens) SOURCES [].

(** ** Tool: source summarizer *)

Record Summary := mkSummary {
  total_sources : nat;
  url_sources : nat;
  title_sources : nat;
  topics : gset string
}.

Definition meaningful (w : string) : Prop := 4 < String.length w.

#[global] Instance meaningful_dec (w : string) : Decision (meaningful w).
Proof. unfold meaningful. apply _. Defined.

Section Summarizer.

(** [list(s)] for a set [s]: the order in which Python iterates over the
    set. The language fixes no order; it is some enumeration of the
    elements. *)
Variable list_of_set : gset string -> list string.

Definition summarize_step (summary : Summary) (src : string) : Summary :=
  let url :=
    if Py.contains "URL:" src
    then url_sources summary + 1 else url_sources summary in
  let title :=
    if Py.contains "TITLE:" src
    then title_sources summary + 1 else title_sources summary in
  let words := tokenize src in
  let meaningful_words := filter meaningful words in
  mkSummary (total_sources summary) url title
    (topics summary ∪ list_to_set (take 3 (list_of_set meaningful_words))).

Definition summarize_sources (sources : list string) : Summary :=
  fold_left summarize_step sources (mkSummary (length sources) 0 0 ∅).

End Summarizer.

(** ** Graph nodes *)

Definition planner_node (state : AgentState) : AgentState :=
  if negb (Py.truthy (Py.strip (current_query state)))
  then set_error "Empty query received." state
  else set_error "" state.

(** The calls [researcher_node] makes inside its [try]: the retriever and
    [print]. Either may raise. *)
Record Tools := mkTools {
  call_search : string -> outcome (list string);
  call_print : string -> outcome unit
}.

(** The progress line [researcher_node] prints. *)
Definition summary_line (summary : Summary) : string :=
  nl +:+ "[Tool: summarize_sources] Found "
  +:+ Py.str_of_nat (total_sources summary) +:+ " sources ("
  +:+ Py.str_of_nat (url_sources summary) +:+ " URLs, "
  +:+ Py.str_of_nat (title_sources summary) +:+ " documents)".

Section Nodes.

Variable list_of_set : gset string -> list string.
Variable tools : Tools.

(** The body of the [try] of [researcher_node]. The state is updated in
    place, so an exception leaves the updates made before it. *)
Definition researcher_try (state : AgentState) : outcome unit * AgentState :=
  match call_search tools (current_query state) with
  | Raised e => (Raised e, state)
  | Returned sources =>
      let state := set_retrieved_sources sources state in
      if Py.nonempty sources then
        let summary := summarize_sources list_of_set sources in
        match call_print tools (summary_line summary) with
        | Raised e => (Raised e, state)
        | Returned _ => (Returned tt, state)
        end
      else (Returned tt, state)
  end.

Definition researcher_node (state : AgentState) : AgentState :=
  match researcher_try state with
  | (Returned _, state) => state
  | (Raised e, state) =>
      let state := set_error ("Search error: " +:+ str_of_exn e) state in
      set_retrieved_sources [] state
  end.

(** One pass of the inner loop of [responder_node] over a line. *)
Definition scan_line (fields : string * string) (line : string)
  : string * string :=
  let '(content, source_ref) := fields in
  if Py.startswith line "CONTENT:"
  then (Py.strip (Py.replace line "CONTENT:" ""), source_ref)
  else if Py.startswith line "URL:"
  then (content, Py.strip (Py.replace line "URL:" ""))
  else if Py.startswith line "TITLE:"
  then (content, Py.strip (Py.replace line "TITLE:" ""))
  else fields.

(** The pair [(content, source_ref)] the inner loop leaves for a block. *)
Definition scan_block (src : string) : string * string :=
  let lines := Py.split (Py.strip src) nl in
  fold_left scan_line lines ("", "").

(** One pass of the outer loop of [responder_node]: [i] is the index
    [enumerate] gives the block. *)
Definition render_step (acc : nat * string * list string) (src : string)
  : nat * string * list string :=
  let '(i, answer, references) := acc in
  let '(content, source_ref) := scan_block src in
  let answer :=
    if Py.truthy content
    then answer +:+ "[" +:+ Py.str_of_nat i +:+ "] " +:+ content +:+ nl +:+ nl
    else answer in
  let references :=
    if Py.truthy source_ref
    then (references ++ ["[" +:+ Py.str_of_nat i +:+ "] " +:+ source_ref])%list
    else references in
  (S i, answer, references).

Definition responder_node (state : AgentState) : AgentState :=
  let query := current_query state in
  if Py.truthy (error state) then
    set_final_answer ("Error: " +:+ error state) state
  else if negb (Py.nonempty (retrieved_sources state)) then
    set_final_answer
      ("No relevant sources found for: '" +:+ query +:+ "'." +:+ nl
       +:+ "Try rephrasing your question.") state
  else
    let answer := "Answer based on sources for: '" +:+ query +:+ "'" +:+ nl +:+ nl in
    let answer := answer +:+ "=== CONTENT ===" +:+ nl +:+ nl in
    let '(_, answer, references) :=
      fold_left render_step (retrieved_sources state) (1, answer, []) in
    let answer :=
      if Py.nonempty references
      then (answer +:+ nl +:+ "=== REFERENCES ===" +:+ nl)
           +:+ Py.join nl references
      else answer in
    set_final_answer answer state.

(** ** Conditional logic *)

Definition has_error (state : AgentState) : string :=
  if Py.truthy (error state) then "error" else "ok".

(** ** The graph *)

Inductive node : Type := planner | researcher | responder.

Inductive target : Type := Goto (n : node) | END.

Definition run_node (n : node) (state : AgentState) : AgentState :=
  match n with
  | planner => planner_node state
  | researcher => researcher_node state
  | responder => responder_node state
  end.

(** The path map of the conditional edge out of the planner. *)
Definition planner_paths : list (string * node) :=
  [("error", responder); ("ok", researcher)].

Fixpoint path_lookup (key : string) (paths : list (string * node))
  : option node :=
  match paths with
  | [] => None
  | (k, n) :: paths' =>
      if String.eqb k key then Some n else path_lookup key paths'
  end.

(** The edges: where the graph goes after node [n] has run and left
    [state]. [None]: the routing function gave a key the path map lacks. *)
Definition route (n : node) (state : AgentState) : option target :=
  match n with
  | planner => option_map Goto (path_lookup (has_error state) planner_paths)
  | researcher => Some (Goto responder)
  | responder => Some END
  end.

(** The number of steps the graph runtime allows before it gives up. *)
Definition recursion_limit : nat := 25.

(** Run the graph from node [n]; [visited] records the nodes run so far. *)
Fixpoint run_graph (fuel : nat) (n : node) (state : AgentState)
    (visited : list node) : outcome (AgentState * list node) :=
  match fuel with
  | O => Raised (Exception "Recursion limit reached")
  | S fuel' =>
      let state := run_node n state in
      let visited := (visited ++ [n])%list in
      match route n state with
      | None => Raised (Exception "Unknown path")
      | Some END => Returned (state, visited)
      | Some (Goto m) => run_graph fuel' m state visited
      end
  end.

(** [agent.invoke(state)], with the entry point [planner]. *)
Definition agent_invoke (state : AgentState)
  : outcome (AgentState * list node) :=
  run_graph recursion_limit planner state [].

End Nodes.

(** The tools of the program itself: [search_sources] over the loaded
    corpus, and a [print] that succeeds. *)
Definition program_tools (SOURCES : list string) : Tools :=
  mkTools (fun query => Returned (search_sources SOURCES query))
          (fun _ => Returned tt).

(** ** The conversation loop *)

(** What the body of the loop of [run_agent] leaves in [state] after a
    turn on [user_input] (the line read, already stripped). *)
Definition end_of_turn (state : AgentState) (user_input : string)
  : AgentState :=
  let state := set_current_query user_input state in
  let state :=
    set_conversation_history (conversation_history state ++ [user_input])%list
                             state in
  let state := set_retrieved_sources [] state in
  let state := set_final_answer "" state in
  set_error "" state.

(** ** What the loops of the responder compute, without accumulators

    These definitions are read off [responder_node]: they give in closed
    form what its two loops leave, and the properties below prove that
    they do. The value of a field is taken the way the scan takes it. *)

(** What the scan stores for a line under [marker]:
    [line.replace(marker, "").strip()], the line with every occurrence of
    the marker deleted, trimmed. *)
Definition scanned_value (line marker : string) : string :=
  Py.strip (Py.replace line marker "").

(** The value of a field as the description of the responder gives it:
    the text that follows the marker at the head of the line, trimmed. *)
Definition text_after_marker (line marker : string) : string :=
  Py.strip (Py.slice_from (String.length marker) line).

Definition is_content_line (line : string) : bool :=
  Py.startswith line "CONTENT:".

Definition is_reference_line (line : string) : bool :=
  Py.startswith line "URL:" || Py.startswith line "TITLE:".

Definition reference_of_line (line : string) : string :=
  if Py.startswith line "URL:"
  then scanned_value line "URL:" else scanned_value line "TITLE:".

Definition lines_of_block (src : string) : list string :=
  Py.split (Py.strip src) nl.

(** The reference the scan leaves for a block: what it stores for the last
    line that starts with ["URL:"] or ["TITLE:"], empty when the block has
    none. *)
Definition last_reference (src : string) : string :=
  match last (filter (fun line => is_reference_line line = true)
                     (lines_of_block src)) with
  | Some line => reference_of_line line
  | None => ""
  end.

(** The content the scan leaves for a block: what it stores for the last
    line that starts with ["CONTENT:"], empty when the block has none. *)
Definition last_content (src : string) : string :=
  match last (filter (fun line => is_content_line line = true)
                     (lines_of_block src)) with
  | Some line => scanned_value line "CONTENT:"
  | None => ""
  end.

Definition content_entry (i : nat) (src : string) : string :=
  if Py.truthy (last_content src)
  then "[" +:+ Py.str_of_nat i +:+ "] " +:+ last_content src +:+ nl +:+ nl
  else "".

Definition reference_entry (i : nat) (src : string) : list string :=
  if Py.truthy (last_reference src)
  then ["[" +:+ Py.str_of_nat i +:+ "] " +:+ last_reference src]
  else [].

(** The body and the reference entries of the blocks [sources], the first
    of which has index [i]. *)
Fixpoint content_body (i : nat) (sources : list string) : string :=
  match sources with
  | [] => ""
  | src :: rest => content_entry i src +:+ content_body (S i) rest
  end.

Fixpoint reference_list (i : nat) (sources : list string) : list string :=
  match sources with
  | [] => []
  | src :: rest => reference_entry i src ++ reference_list (S i) rest
  end.

Definition answer_header (query : string) : string :=
  ("Answer based on sources for: '" +:+ query +:+ "'" +:+ nl +:+ nl)
  +:+ "=== CONTENT ===" +:+ nl +:+ nl.

(** ** Cutting at every separator line

    These definitions follow the words of the description of the corpus
    store, not [load_sources]: the content is read as lines, and every
    line that is exactly three hyphens with a line feed before it and a
    line feed after it (so neither the first line nor the last) ends a
    block. *)

(** The lines [lines] gathered into blocks; [current] holds the lines of
    the block being read. *)
Fixpoint group_lines (current : list string) (lines : list string)
  : list (list string) :=
  match lines with
  | [] => [current]
  | line :: lines' =>
      match lines' with
      | [] => [current ++ [line]]
      | _ :: _ =>
          if String.eqb line "---"
          then current :: group_lines [] lines'
          else group_lines (current ++ [line]) lines'
      end
  end.

Definition split_at_separator_lines (text : string) : list string :=
  match Py.split text nl with
  | [] => []
  | first :: lines => map (Py.join nl) (group_lines [first] lines)
  end.

(** ** Where a split cuts

    [cuts_leftmost sep p b bs]: in the sequence of blocks [b :: bs], no
    occurrence of [sep] starts inside a block that a separator follows;
    [p] is [sep] without its last character. *)
Fixpoint cuts_leftmost (sep p b : string) (bs : list string) : Prop :=
  match bs with
  | [] => True
  | b' :: bs' =>
      Py.contains sep (b +:+ p) = false /\ cuts_leftmost sep p b' bs'
  end.

(** ** The conversation loop, from the first line to the last *)

(** The state [run_agent] starts from. *)
Definition initial_state : AgentState := mkState [] "" [] "" "".

(** How the loop ends: the user typed [exit], or a call raised; [input]
    raises [EOFError] when there is no line left to read. *)
Inductive ending : Type := Exited | Crashed (e : exn).

(** The test of the loop on a line read: [user_input.lower() == "exit"],
    [user_input] being the line stripped. *)
Definition is_exit (line : string) : bool :=
  String.eqb (Py.lower (Py.strip line)) "exit".

(** The loop of [run_agent] over the lines [input] returns one after the
    other. It gives the result of [agent.invoke] of every turn, as the
    loop prints it, the state the loop is left with, and how it ended. *)
Fixpoint conversation (list_of_set : gset string -> list string)
    (tools : Tools) (lines : list string) (state : AgentState)
  : list AgentState * AgentState * ending :=
  match lines with
  | [] => ([], state, Crashed (Exception "EOF when reading a line"))
  | line :: lines' =>
      let user_input := Py.strip line in
      if String.eqb (Py.lower user_input) "exit" then ([], state, Exited)
      else
        let state := set_current_query user_input state in
        match agent_invoke list_of_set tools state with
        | Raised e => ([], state, Crashed e)
        | Returned (result, _) =>
            let state := end_of_turn state user_input in
            let '(results, state, how) :=
              conversation list_of_set tools lines' state in
            (result :: results, state, how)
        end
  end.

Definition run_agent (list_of_set : gset string -> list string)
    (tools : Tools) (lines : list string)
  : list AgentState * AgentState * ending :=
  conversation list_of_set tools lines initial_state.

(** The queries of a conversation: the lines read before the first
    [exit], stripped. *)
Fixpoint queries_before_exit (lines : list string) : list string :=
  match lines with
  | [] => []
  | line :: lines' =>
      if is_exit line then [] else Py.strip line :: queries_before_exit lines'
  end.

(** The answer to a query asked on its own, in a first turn. *)
Definition single_answer (list_of_set : gset string -> list string)
    (tools : Tools) (query : string) : string :=
  match agent_invoke list_of_set tools (mkState [] query [] "" "") with
  | Returned (result, _) => final_answer result
  | Raised _ => ""
  end.

(** ** Characters of a string *)

(** Every character of [s] passes the test [p]. *)
Fixpoint all_chars (p : ascii -> bool) (s : string) : bool :=
  match s with
  | EmptyString => true
  | String c s' => p c && all_chars p s'
  end.

(** What the tokenizer leaves of a text before it splits it: characters
    that are word characters or whitespace, in lower case. *)
Definition token_char (c : ascii) : bool :=
  (Py.isword c || Py.isspace c) && Ascii.eqb (Py.lower_char c) c.

(** * Properties *)

(** ** Strings *)

Lemma truthy_false (s : string) : Py.truthy s = false <-> s = "".
Proof. destruct s; simpl; split; congruence. Qed.

Lemma truthy_true (s : string) : Py.truthy s = true <-> s <> "".
Proof. destruct s; simpl; split; congruence. Qed.

Lemma append_nil_l (t : string) : "" +:+ t = t.
Proof. reflexivity. Qed.

Lemma append_cons (c : ascii) (s t : string) :
  String c s +:+ t = String c (s +:+ t).
Proof. reflexivity. Qed.

Ltac str_simpl := simpl; rewrite ?append_cons, ?append_nil_l; simpl.

Lemma append_empty_r (s : string) : s +:+ "" = s.
Proof. induction s as [|c s IH]; str_simpl; [reflexivity | now rewrite IH]. Qed.

Lemma append_assoc (s t u : string) : (s +:+ t) +:+ u = s +:+ t +:+ u.
Proof. induction s as [|c s IH]; str_simpl; [reflexivity | now rewrite IH]. Qed.

Lemma prefix_append (p s : string) : String.prefix p (p +:+ s) = true.
Proof.
  induction p as [|c p IH]; str_simpl; [now destruct s |].
  destruct (ascii_dec c c); [exact IH | congruence].
Qed.

Lemma prefix_append_l (p s t : string) :
  String.prefix p s = true -> String.prefix p (s +:+ t) = true.
Proof.
  revert s; induction p as [|c p IH]; intros s H; [now destruct (s +:+ t) |].
  destruct s as [|d s]; str_simpl; [discriminate |].
  simpl in H. destruct (ascii_dec c d); [now apply IH | discriminate].
Qed.

Lemma contains_of_prefix (p s : string) :
  String.prefix p s = true -> Py.contains p s = true.
Proof. intros H. destruct s; simpl in *; rewrite H; reflexivity. Qed.

Lemma contains_append_r (p s t : string) :
  Py.contains p t = true -> Py.contains p (s +:+ t) = true.
Proof.
  intros H. induction s as [|c s IH]; str_simpl; [exact H |].
  rewrite IH. apply orb_true_r.
Qed.

Lemma contains_middle (p pre post : string) :
  Py.contains p (pre +:+ p +:+ post) = true.
Proof. apply contains_append_r, contains_of_prefix, prefix_append. Qed.

(** ** The graph runs to its end *)

Lemma planner_error (state : AgentState) :
  error (planner_node state) =
  if Py.truthy (Py.strip (current_query state))
  then "" else "Empty query received.".
Proof.
  unfold planner_node.
  destruct (Py.truthy (Py.strip (current_query state))); reflexivity.
Qed.

Lemma planner_keeps (state : AgentState) :
  current_query (planner_node state) = current_query state
  /\ retrieved_sources (planner_node state) = retrieved_sources state
  /\ conversation_history (planner_node state) = conversation_history state.
Proof.
  unfold planner_node.
  destruct (negb (Py.truthy (Py.strip (current_query state)))); auto.
Qed.

(** A turn takes two or three steps and always returns: the planner, the
    researcher unless the query is empty, the responder. *)
Lemma agent_invoke_eq (list_of_set : gset string -> list string)
    (tools : Tools) (state : AgentState) :
  agent_invoke list_of_set tools state =
  if Py.truthy (Py.strip (current_query state))
  then Returned
         (responder_node (researcher_node list_of_set tools (planner_node state)),
          [planner; researcher; responder])
  else Returned (responder_node (planner_node state), [planner; responder]).
Proof.
  unfold agent_invoke, recursion_limit.
  cbn [run_graph run_node route app].
  unfold has_error. rewrite planner_error.
  destruct (Py.truthy (Py.strip (current_query state))); reflexivity.
Qed.

Lemma responder_on_error (state : AgentState) :
  error state <> "" ->
  responder_node state = set_final_answer ("Error: " +:+ error state) state.
Proof.
  intros H. apply truthy_true in H. unfold responder_node. now rewrite H.
Qed.

Lemma responder_no_sources (state : AgentState) :
  error state = "" -> retrieved_sources state = [] ->
  responder_node state =
  set_final_answer
    ("No relevant sources found for: '" +:+ current_query state +:+ "'."
     +:+ nl +:+ "Try rephrasing your question.") state.
Proof.
  intros He Hs. unfold responder_node. rewrite He, Hs. reflexivity.
Qed.

Lemma responder_keeps (state : AgentState) :
  error (responder_node state) = error state
  /\ retrieved_sources (responder_node state) = retrieved_sources state
  /\ current_query (responder_node state) = current_query state.
Proof.
  unfold responder_node.
  destruct (Py.truthy (error state)); [auto |].
  destruct (negb (Py.nonempty (retrieved_sources state))); [auto |].
  destruct (fold_left render_step _ _) as [[i answer] references]. auto.
Qed.

(** What the handler of [researcher_node] leaves. *)
Lemma researcher_raised (list_of_set : gset string -> list string)
    (tools : Tools) (state : AgentState) (e : exn) :
  fst (researcher_try list_of_set tools state) = Raised e ->
  error (researcher_node list_of_set tools state)
    = "Search error: " +:+ str_of_exn e
  /\ retrieved_sources (researcher_node list_of_set tools state) = []
  /\ current_query (researcher_node list_of_set tools state)
     = current_query state.
Proof.
  unfold researcher_node.
  destruct (researcher_try list_of_set tools state) as [r st] eqn:E.
  simpl. intros ->. simpl. repeat split.
  unfold researcher_try in E.
  destruct (call_search tools (current_query state)) as [sources|e'].
  - destruct (Py.nonempty sources).
    + destruct (call_print tools _); inversion E; reflexivity.
    + inversion E.
  - inversion E; reflexivity.
Qed.

Lemma researcher_returned (list_of_set : gset string -> list string)
    (tools : Tools) (state : AgentState) (u : unit) :
  fst (researcher_try list_of_set tools state) = Returned u ->
  exists sources,
    call_search tools (current_query state) = Returned sources
    /\ researcher_node list_of_set tools state
       = set_retrieved_sources sources state.
Proof.
  unfold researcher_node, researcher_try.
  destruct (call_search tools (current_query state)) as [sources|e'];
    [| discriminate].
  destruct (Py.nonempty sources).
  - destruct (call_print tools _); simpl; [| discriminate].
    intros _. now exists sources.
  - intros _. now exists sources.
Qed.

(** ** The retriever *)

Lemma search_fold (query_tokens : gset string) (SOURCES matches : list string) :
  fold_left (search_step query_tokens) SOURCES matches =
  matches ++ map Py.strip
    (filter (fun block => query_tokens ∩ tokenize block ≠ ∅) SOURCES).
Proof.
  revert matches; induction SOURCES as [|block rest IH]; intros matches.
  - simpl. now rewrite app_nil_r.
  - cbn [fold_left]. rewrite IH. unfold search_step, overlap.
    case_bool_decide as Hov.
    + rewrite filter_cons_True by exact Hov. cbn [map].
      now rewrite <- app_assoc.
    + now rewrite filter_cons_False by (intros H; now apply H).
Qed.

Lemma search_sources_eq (SOURCES : list string) (query : string) :
  search_sources SOURCES query =
  map Py.strip
    (filter (fun block => tokenize query ∩ tokenize block ≠ ∅) SOURCES).
Proof. unfold search_sources. now rewrite search_fold. Qed.

Lemma search_sources_nil_iff (SOURCES : list string) (query : string) :
  search_sources SOURCES query = []
  <-> Forall (fun block => tokenize query ∩ tokenize block = ∅) SOURCES.
Proof.
  rewrite search_sources_eq. induction SOURCES as [|block rest IH].
  - split; [constructor | reflexivity].
  - destruct (decide (tokenize query ∩ tokenize block = ∅)) as [He|Hne].
    + rewrite filter_cons_False by (intros H; now apply H).
      rewrite IH. split; [now constructor | now inversion 1].
    + rewrite filter_cons_True by exact Hne. cbn [map].
      split; [discriminate | inversion 1; contradiction].
Qed.

(** A turn of the program on a query that has characters other than
    whitespace and that no block of the corpus shares a token with. *)
Lemma turn_without_match (list_of_set : gset string -> list string)
    (SOURCES : list string) (state : AgentState) :
  Py.strip (current_query state) <> "" ->
  search_sources SOURCES (current_query state) = [] ->
  agent_invoke list_of_set (program_tools SOURCES) state =
  Returned
    (mkState (conversation_history state) (current_query state) []
       ("No relevant sources found for: '" +:+ current_query state +:+ "'."
        +:+ nl +:+ "Try rephrasing your question.") "",
     [planner; researcher; responder]).
Proof.
  intros Hq Hs. rewrite agent_invoke_eq.
  apply truthy_true in Hq. rewrite Hq. do 2 f_equal.
  unfold researcher_node, researcher_try, program_tools. cbn [call_search].
  destruct (planner_keeps state) as (Hpq & _ & Hph).
  rewrite Hpq, Hs. cbn [Py.nonempty].
  rewrite responder_no_sources.
  - unfold set_final_answer, set_retrieved_sources. cbn.
    rewrite Hpq, Hph, planner_error, Hq. reflexivity.
  - cbn. now rewrite planner_error, Hq.
  - reflexivity.
Qed.

(** ** The turn *)

(** C1. A turn entered with error, final answer and retrieved sources
    cleared, on a query that is empty once trimmed, runs the planner and
    then the responder only; it ends with the final answer
    ["Error: Empty query received."] and no retrieved sources, whatever the
    tools are: the retriever is not called. *)
Theorem C1_empty_query_is_rejected
    (list_of_set : gset string -> list string) (tools : Tools)
    (state : AgentState) :
  error state = "" -> final_answer state = "" ->
  retrieved_sources state = [] ->
  Py.strip (current_query state) = "" ->
  exists state',
    agent_invoke list_of_set tools state
      = Returned (state', [planner; responder])
    /\ state' = mkState (conversation_history state) (current_query state) []
                  "Error: Empty query received." "Empty query received."
    /\ final_answer state' = "Error: Empty query received."
    /\ retrieved_sources state' = []
    /\ ~ In researcher [planner; responder].
Proof.
  intros He Hf Hr Hq. rewrite agent_invoke_eq, Hq. cbn [Py.truthy].
  eexists; split; [reflexivity |].
  assert (Hst : responder_node (planner_node state)
    = mkState (conversation_history state) (current_query state) []
        "Error: Empty query received." "Empty query received.").
  { unfold planner_node. rewrite Hq. cbn [Py.truthy negb].
    rewrite responder_on_error by discriminate.
    unfold set_final_answer, set_error. cbn. now rewrite Hr. }
  rewrite Hst. cbn. repeat split.
  intros [H|[H|[]]]; discriminate.
Qed.

Lemma C1_empty_query_is_rejected_witness :
  exists state',
    agent_invoke elements (program_tools ["CONTENT: oceans"])
      (mkState ["earlier"] "   " [] "" "")
      = Returned (state', [planner; responder])
    /\ state' = mkState ["earlier"] "   " []
                  "Error: Empty query received." "Empty query received."
    /\ final_answer state' = "Error: Empty query received."
    /\ retrieved_sources state' = []
    /\ ~ In researcher [planner; responder].
Proof.
  apply (C1_empty_query_is_rejected elements
           (program_tools ["CONTENT: oceans"])
           (mkState ["earlier"] "   " [] "" ""));
    reflexivity.
Defined.

(** C5. A turn of the program on a query that is not empty once trimmed,
    over a corpus none of whose blocks shares a token with the query (the
    empty corpus included), completes with a final answer that contains
    ["No relevant sources found for: '<query>'."] and with the error field
    empty. *)
Theorem C5_no_match_is_not_an_error
    (list_of_set : gset string -> list string) (SOURCES : list string)
    (state : AgentState) :
  Py.strip (current_query state) <> "" ->
  Forall (fun block => tokenize (current_query state) ∩ tokenize block = ∅)
         SOURCES ->
  exists state' path,
    agent_invoke list_of_set (program_tools SOURCES) state
      = Returned (state', path)
    /\ Py.contains
         ("No relevant sources found for: '" +:+ current_query state +:+ "'.")
         (final_answer state') = true
    /\ final_answer state'
       = "No relevant sources found for: '" +:+ current_query state +:+ "'."
         +:+ nl +:+ "Try rephrasing your question."
    /\ error state' = ""
    /\ retrieved_sources state' = [].
Proof.
  intros Hq Hall. apply search_sources_nil_iff in Hall.
  rewrite (turn_without_match list_of_set SOURCES state Hq Hall).
  do 2 eexists; split; [reflexivity |]. cbn. repeat split.
  rewrite <- !append_assoc.
  rewrite (append_assoc _ nl).
  apply contains_of_prefix, prefix_append.
Qed.

Lemma C5_no_match_is_not_an_error_witness :
  exists state' path,
    agent_invoke elements (program_tools ["CONTENT: Oceans cover most of Earth."])
      (mkState [] "anything" [] "" "")
      = Returned (state', path)
    /\ Py.contains "No relevant sources found for: 'anything'."
         (final_answer state') = true
    /\ final_answer state'
       = "No relevant sources found for: 'anything'."
         +:+ nl +:+ "Try rephrasing your question."
    /\ error state' = ""
    /\ retrieved_sources state' = [].
Proof.
  apply (C5_no_match_is_not_an_error elements
           ["CONTENT: Oceans cover most of Earth."]
           (mkState [] "anything" [] "" "")).
  - vm_compute. discriminate.
  - constructor; [vm_compute; reflexivity | constructor].
Defined.

(** C6. When the retrieval of the researcher raises an exception (the
    search itself, or what follows it inside the same [try]), the turn
    does not crash: the researcher sets the error field to
    ["Search error: "] followed by the description of the exception,
    empties the retrieved sources, and the graph goes on to the
    responder, whose final answer is ["Error: "] followed by that error
    message. *)
Theorem C6_retrieval_exception_is_caught
    (list_of_set : gset string -> list string) (tools : Tools)
    (state : AgentState) (e : exn) :
  Py.strip (current_query state) <> "" ->
  fst (researcher_try list_of_set tools (planner_node state)) = Raised e ->
  let caught := researcher_node list_of_set tools (planner_node state) in
  error caught = "Search error: " +:+ str_of_exn e
  /\ retrieved_sources caught = []
  /\ route researcher caught = Some (Goto responder)
  /\ exists state',
       agent_invoke list_of_set tools state
         = Returned (state', [planner; researcher; responder])
       /\ state' = responder_node caught
       /\ error state' = "Search error: " +:+ str_of_exn e
       /\ retrieved_sources state' = []
       /\ final_answer state' = "Error: " +:+ "Search error: " +:+ str_of_exn e.
Proof.
  intros Hq Hraise caught.
  destruct (researcher_raised _ _ _ _ Hraise) as (Herr & Hsrc & _).
  fold caught in Herr, Hsrc.
  split; [exact Herr |]. split; [exact Hsrc |]. split; [reflexivity |].
  exists (responder_node caught). rewrite agent_invoke_eq.
  apply truthy_true in Hq. rewrite Hq. fold caught.
  split; [reflexivity |]. split; [reflexivity |].
  rewrite responder_on_error by (rewrite Herr; discriminate).
  cbn. rewrite Herr, Hsrc. auto.
Qed.

Lemma C6_retrieval_exception_is_caught_witness :
  let tools :=
    mkTools (fun _ => Returned ["CONTENT: oceans"])
            (fun _ => Raised (Exception "Broken pipe")) in
  let state := mkState [] "ocean" [] "" "" in
  let caught := researcher_node elements tools (planner_node state) in
  error caught = "Search error: Broken pipe"
  /\ retrieved_sources caught = []
  /\ route researcher caught = Some (Goto responder)
  /\ exists state',
       agent_invoke elements tools state
         = Returned (state', [planner; researcher; responder])
       /\ state' = responder_node caught
       /\ error state' = "Search error: Broken pipe"
       /\ retrieved_sources state' = []
       /\ final_answer state' = "Error: Search error: Broken pipe".
Proof.
  intros tools state.
  apply (C6_retrieval_exception_is_caught elements tools state
           (Exception "Broken pipe")).
  - vm_compute. discriminate.
  - vm_compute. reflexivity.
Defined.

(** C7. In the state a completed turn returns, a non-empty error field
    comes with a final answer that is exactly ["Error: "] followed by the
    error field. *)
Theorem C7_error_and_answer_agree
    (list_of_set : gset string -> list string) (tools : Tools)
    (state state' : AgentState) (path : list node) :
  agent_invoke list_of_set tools state = Returned (state', path) ->
  error state' <> "" ->
  final_answer state' = "Error: " +:+ error state'.
Proof.
  rewrite agent_invoke_eq.
  destruct (Py.truthy (Py.strip (current_query state)));
    intros [= <- _] Herr;
    destruct (responder_keeps
                (researcher_node list_of_set tools (planner_node state)))
      as (H1 & _);
    destruct (responder_keeps (planner_node state)) as (H2 & _).
  - rewrite H1 in *. now rewrite responder_on_error.
  - rewrite H2 in *. now rewrite responder_on_error.
Qed.

Lemma C7_error_and_answer_agree_witness :
  final_answer
    (mkState [] "ocean" [] "Error: Search error: boom" "Search error: boom")
  = "Error: " +:+
    error (mkState [] "ocean" [] "Error: Search error: boom"
             "Search error: boom").
Proof.
  apply (C7_error_and_answer_agree elements
           (mkTools (fun _ => Raised (Exception "boom"))
                    (fun _ => Returned tt))
           (mkState [] "ocean" [] "" "")
           (mkState [] "ocean" [] "Error: Search error: boom"
              "Search error: boom")
           [planner; researcher; responder]).
  - vm_compute. reflexivity.
  - vm_compute. discriminate.
Defined.

(** C10. A query that is not empty once trimmed but has no token passes
    the planner with an empty error field; the search finds nothing in
    any corpus; the turn ends with the no-sources answer and no retrieved
    block. *)
Theorem C10_tokenless_query_finds_nothing
    (list_of_set : gset string -> list string) (SOURCES : list string)
    (state : AgentState) :
  Py.strip (current_query state) <> "" ->
  tokenize (current_query state) = ∅ ->
  error (planner_node state) = ""
  /\ search_sources SOURCES (current_query state) = []
  /\ exists state',
       agent_invoke list_of_set (program_tools SOURCES) state
         = Returned (state', [planner; researcher; responder])
       /\ retrieved_sources state' = []
       /\ error state' = ""
       /\ final_answer state'
          = "No relevant sources found for: '" +:+ current_query state
            +:+ "'." +:+ nl +:+ "Try rephrasing your question.".
Proof.
  intros Hq Htok.
  assert (Hs : search_sources SOURCES (current_query state) = []).
  { apply search_sources_nil_iff, Forall_forall. intros block _.
    rewrite Htok. apply intersection_empty_l_L. }
  split.
  { rewrite planner_error. apply truthy_true in Hq. now rewrite Hq. }
  split; [exact Hs |].
  rewrite (turn_without_match list_of_set SOURCES state Hq Hs).
  eexists; split; [reflexivity |]. cbn. auto.
Qed.

Lemma C10_tokenless_query_finds_nothing_witness :
  let SOURCES := ["CONTENT: Is this it?!"; "TITLE: ?!"] in
  let state := mkState [] "?!" [] "" "" in
  error (planner_node state) = ""
  /\ search_sources SOURCES "?!" = []
  /\ exists state',
       agent_invoke elements (program_tools SOURCES) state
         = Returned (state', [planner; researcher; responder])
       /\ retrieved_sources state' = []
       /\ error state' = ""
       /\ final_answer state'
          = "No relevant sources found for: '?!'." +:+ nl
            +:+ "Try rephrasing your question.".
Proof.
  intros SOURCES state.
  apply (C10_tokenless_query_finds_nothing elements SOURCES state).
  - vm_compute. discriminate.
  - vm_compute. reflexivity.
Defined.

(** C2. The search returns the blocks of the corpus whose token set meets
    the token set of the query, each trimmed, in the order of the corpus;
    the result is empty exactly when no block matches, which includes the
    empty corpus. *)
Theorem C2_search_keeps_matching_blocks_in_order
    (SOURCES : list string) (query : string) :
  search_sources SOURCES query
    = map Py.strip
        (filter (fun block => tokenize query ∩ tokenize block ≠ ∅) SOURCES)
  /\ (search_sources SOURCES query = []
      <-> Forall (fun block => tokenize query ∩ tokenize block = ∅) SOURCES)
  /\ search_sources [] query = [].
Proof.
  split; [apply search_sources_eq |].
  split; [apply search_sources_nil_iff | exact eq_refl].
Qed.

(** Of three blocks of which the query meets the last two, the search
    returns those two, in the order of the corpus. *)
Example search_keeps_corpus_order :
  search_sources ["TITLE: Deserts"; " URL: rivers and lakes "; "CONTENT: Lakes!"]
                 "lakes"
  = ["URL: rivers and lakes"; "CONTENT: Lakes!"].
Proof. vm_compute. reflexivity. Qed.

(** ** The summarizer *)

Lemma size_list_to_set_le (l : list string) :
  size (list_to_set l : gset string) <= length l.
Proof.
  induction l as [|w l IH]; cbn [list_to_set length].
  - now rewrite size_empty.
  - rewrite size_union_alt, size_singleton.
    assert (Hle : size ((list_to_set l : gset string) ∖ {[w]})
                  <= size (list_to_set l : gset string)).
    { apply subseteq_size. intros x Hx.
      apply elem_of_difference in Hx. tauto. }
    lia.
Qed.

(** The part of the summary a loop that has reached [sources] still adds
    to the counters and the topics it holds. *)
Lemma summarize_fold (list_of_set : gset string -> list string)
    (sources : list string) (total url title : nat) (seen : gset string) :
  fold_left (summarize_step list_of_set) sources
    (mkSummary total url title seen)
  = mkSummary total
      (url + length (filter (fun src => Py.contains "URL:" src = true) sources))
      (title
       + length (filter (fun src => Py.contains "TITLE:" src = true) sources))
      (seen ∪
       ⋃ (map (fun src =>
                 list_to_set
                   (take 3 (list_of_set (filter meaningful (tokenize src)))))
              sources)).
Proof.
  revert url title seen.
  induction sources as [|src rest IH]; intros url title seen.
  - cbn [fold_left map]. rewrite !filter_nil. cbn [length].
    rewrite !Nat.add_0_r, union_list_nil, (right_id_L ∅ (∪)).
    reflexivity.
  - cbn [fold_left]. unfold summarize_step at 2.
    cbn [total_sources url_sources title_sources topics].
    rewrite IH. cbn [map]. rewrite union_list_cons, (assoc_L (∪)).
    f_equal.
    + destruct (Py.contains "URL:" src) eqn:E.
      * rewrite filter_cons_True by exact E. cbn [length]. lia.
      * rewrite filter_cons_False by (rewrite E; discriminate). lia.
    + destruct (Py.contains "TITLE:" src) eqn:E.
      * rewrite filter_cons_True by exact E. cbn [length]. lia.
      * rewrite filter_cons_False by (rewrite E; discriminate). lia.
Qed.

(** C8. The summary of a sequence of blocks counts the blocks, the blocks
    that contain ["URL:"] and the blocks that contain ["TITLE:"]; its
    topics are the union of one contribution per block, each of at most 3
    tokens of that block longer than 4 characters, so every topic is such
    a token of one of the blocks. The order in which Python lists a set is
    taken as an arbitrary enumeration of the set. *)
Theorem C8_summary_counts_and_topics
    (list_of_set : gset string -> list string)
    (Henum : forall s : gset string, list_of_set s ≡ₚ elements s)
    (sources : list string) :
  let summary := summarize_sources list_of_set sources in
  total_sources summary = length sources
  /\ url_sources summary
     = length (filter (fun src => Py.contains "URL:" src = true) sources)
  /\ title_sources summary
     = length (filter (fun src => Py.contains "TITLE:" src = true) sources)
  /\ (exists contributions : list (gset string),
        topics summary = ⋃ contributions
        /\ Forall2
             (fun src (c : gset string) =>
                size c <= 3
                /\ forall w, w ∈ c -> w ∈ tokenize src /\ 4 < String.length w)
             sources contributions)
  /\ (forall w, w ∈ topics summary ->
        exists src, src ∈ sources /\ w ∈ tokenize src /\ 4 < String.length w).
Proof.
  intros summary. unfold summary, summarize_sources.
  rewrite summarize_fold. cbn [total_sources url_sources title_sources topics].
  rewrite (left_id_L ∅ (∪)).
  assert (Hc : forall src w,
    w ∈ (list_to_set
           (take 3 (list_of_set (filter meaningful (tokenize src))))
         : gset string) ->
    w ∈ tokenize src /\ 4 < String.length w).
  { intros src w Hw. apply elem_of_list_to_set in Hw.
    apply elem_of_take in Hw. destruct Hw as (i & Hi & _).
    apply list_elem_of_lookup_2 in Hi. rename Hi into Hw.
    rewrite (Henum _) in Hw. apply elem_of_elements in Hw.
    apply elem_of_filter in Hw. destruct Hw as [Hm Ht]. now split. }
  repeat split; [| intros w Hw].
  - eexists; split; [reflexivity |].
    induction sources as [|src rest IH]; cbn [map]; constructor; [| exact IH].
    split; [| apply Hc].
    etransitivity; [apply size_list_to_set_le |].
    rewrite length_take. lia.
  - apply elem_of_union_list in Hw. destruct Hw as (c & Hin & Hw).
    apply list_elem_of_fmap in Hin. destruct Hin as (src & -> & Hsrc).
    exists src. split; [exact Hsrc | now apply Hc].
Qed.

Lemma C8_summary_counts_and_topics_witness :
  let sources :=
    ["URL: http://example.com/ocean" +:+ nl +:+ "CONTENT: Oceans cover Earth.";
     "TITLE: Rivers" +:+ nl +:+ "URL: http://example.com/rivers";
     "plain remark about mountains"] in
  let summary := summarize_sources elements sources in
  total_sources summary = 3
  /\ url_sources summary = 2
  /\ title_sources summary = 1
  /\ (exists contributions : list (gset string),
        topics summary = ⋃ contributions
        /\ Forall2
             (fun src (c : gset string) =>
                size c <= 3
                /\ forall w, w ∈ c -> w ∈ tokenize src /\ 4 < String.length w)
             sources contributions)
  /\ (forall w, w ∈ topics summary ->
        exists src, src ∈ sources /\ w ∈ tokenize src /\ 4 < String.length w).
Proof.
  intros sources.
  exact (C8_summary_counts_and_topics elements
           (fun s => reflexivity (elements s)) sources).
Defined.

(** ** Splitting on a separator *)

Lemma length_append (s t : string) :
  String.length (s +:+ t) = String.length s + String.length t.
Proof. induction s as [|c s IH]; str_simpl; [reflexivity | now rewrite IH]. Qed.

Lemma prefix_length (p s : string) :
  String.prefix p s = true -> String.length p <= String.length s.
Proof.
  revert s; induction p as [|c p IH]; intros s H; simpl; [lia |].
  destruct s as [|d s]; simpl in *; [discriminate |].
  destruct (ascii_dec c d); [| discriminate].
  apply IH in H. lia.
Qed.

Lemma contains_length (p s : string) :
  String.length s < String.length p -> Py.contains p s = false.
Proof.
  induction s as [|c s IH]; intros Hlt.
  - simpl. destruct p; [simpl in Hlt; lia | reflexivity].
  - cbn [Py.contains]. rewrite IH by (simpl in Hlt; lia).
    destruct (String.prefix p (String c s)) eqn:E; [| reflexivity].
    apply prefix_length in E. lia.
Qed.

Lemma prefix_slice (p s : string) :
  String.prefix p s = true -> p +:+ Py.slice_from (String.length p) s = s.
Proof.
  revert s; induction p as [|c p IH]; intros s H; str_simpl; [reflexivity |].
  destruct s as [|d s]; simpl in *; [discriminate |].
  destruct (ascii_dec c d) as [->|]; [| discriminate].
  now rewrite IH.
Qed.

Lemma join_two (sep b b' : string) (bs : list string) :
  Py.join sep (b :: b' :: bs) = b +:+ sep +:+ Py.join sep (b' :: bs).
Proof. reflexivity. Qed.

Lemma join_head (sep b : string) (bs : list string) :
  exists rest, Py.join sep (b :: bs) = b +:+ rest.
Proof.
  destruct bs as [|b' bs].
  - exists "". cbn. now rewrite append_empty_r.
  - eexists. apply join_two.
Qed.

Lemma join_push (sep : string) (c : ascii) (b : string) (bs : list string) :
  Py.join sep (String c b :: bs) = String c (Py.join sep (b :: bs)).
Proof. destruct bs; [reflexivity | now rewrite !join_two]. Qed.

Section Split.

(** The separator is not empty: [d] is its first character. *)
Variable d : ascii.
Variable sep' : string.

Let sep : string := String d sep'.

(** Joining the blocks with the separator gives the text back. *)
Lemma split_go_join (s : string) (k : nat) :
  Py.join sep (fst (Py.split_go sep k s) :: snd (Py.split_go sep k s))
  = Py.slice_from k s.
Proof.
  revert k; induction s as [|c s IH]; intros k.
  - now destruct k.
  - destruct k as [|k]; cbn [Py.split_go Py.slice_from]; [| apply IH].
    destruct (String.prefix sep (String c s)) eqn:E.
    + specialize (IH (String.length sep - 1)).
      destruct (Py.split_go sep (String.length sep - 1) s) as [b bs].
      cbn [fst snd] in *. rewrite join_two, IH, append_nil_l.
      etransitivity; [| apply (prefix_slice _ _ E)].
      subst sep. cbn [String.length].
      rewrite Nat.sub_succ, Nat.sub_0_r. reflexivity.
    + specialize (IH 0).
      destruct (Py.split_go sep 0 s) as [b bs]. cbn [fst snd] in *.
      rewrite join_push, IH. reflexivity.
Qed.

(** No block holds a separator. *)
Lemma split_go_free (s : string) (k : nat) :
  Py.contains sep (fst (Py.split_go sep k s)) = false
  /\ Forall (fun b => Py.contains sep b = false) (snd (Py.split_go sep k s)).
Proof.
  revert k; induction s as [|c s IH]; intros k.
  - split; [reflexivity | constructor].
  - destruct k as [|k]; cbn [Py.split_go]; [| apply IH].
    destruct (String.prefix sep (String c s)) eqn:E.
    + specialize (IH (String.length sep - 1)).
      destruct (Py.split_go sep (String.length sep - 1) s) as [b bs].
      cbn [fst snd] in *. destruct IH as [Hb Hbs].
      split; [reflexivity | now constructor].
    + pose proof (split_go_join s 0) as Hjoin. specialize (IH 0).
      destruct (Py.split_go sep 0 s) as [b bs]. cbn [fst snd] in *.
      destruct IH as [Hb Hbs]. split; [| exact Hbs].
      cbn [Py.contains]. rewrite Hb, orb_false_r.
      destruct (String.prefix sep (String c b)) eqn:E'; [| reflexivity].
      destruct (join_head sep b bs) as [rest Hrest].
      rewrite Hjoin in Hrest. cbn [Py.slice_from] in Hrest.
      apply (prefix_append_l _ _ rest) in E'.
      rewrite append_cons, <- Hrest in E'. congruence.
Qed.

(** The separators are taken where they first occur. *)
Lemma split_go_leftmost (p : string) (e : ascii) (s : string) (k : nat) :
  sep = p +:+ String e "" ->
  cuts_leftmost sep p (fst (Py.split_go sep k s)) (snd (Py.split_go sep k s)).
Proof.
  intros Hsep. revert k; induction s as [|c s IH]; intros k.
  - exact I.
  - destruct k as [|k]; cbn [Py.split_go]; [| apply IH].
    destruct (String.prefix sep (String c s)) eqn:E.
    + specialize (IH (String.length sep - 1)).
      destruct (Py.split_go sep (String.length sep - 1) s) as [b bs].
      cbn [fst snd cuts_leftmost] in *. split; [| exact IH].
      rewrite append_nil_l. apply contains_length.
      rewrite Hsep, length_append. simpl. lia.
    + pose proof (split_go_join s 0) as Hjoin. specialize (IH 0).
      destruct (Py.split_go sep 0 s) as [b bs]. cbn [fst snd] in *.
      destruct bs as [|b' bs]; [exact I |].
      cbn [cuts_leftmost] in *. destruct IH as [Hb Hrest].
      split; [| exact Hrest].
      rewrite append_cons. cbn [Py.contains]. rewrite Hb, orb_false_r.
      destruct (String.prefix sep (String c (b +:+ p))) eqn:E';
        [| reflexivity].
      rewrite join_two in Hjoin. cbn [Py.slice_from] in Hjoin.
      rewrite Hsep in Hjoin at 1.
      rewrite (append_assoc p), <- (append_assoc b p) in Hjoin.
      apply (prefix_append_l _ _ (String e "" +:+ Py.join sep (b' :: bs)))
        in E'.
      rewrite append_cons, Hjoin in E'. congruence.
Qed.

End Split.

(** C9, as amended. [load_sources] gives no block, and no error, when the
    file does not exist, and a search over no block returns nothing.
    Otherwise it cuts the text of the file at the occurrences of the
    separator, a line feed, three hyphens and a line feed, taken left to
    right without overlap: the blocks joined by the separator are the
    text, no block holds a separator, and every cut is where the
    separator first occurs after the cut before it. A line of three
    hyphens that comes right after a separator line is therefore no cut:
    it opens the next block. *)
Theorem C9_load_sources_splits_at_separator
    (fs : string -> read_result) (default_path : string)
    (file_path : option string) :
  let path := match file_path with None => default_path | Some p => p end in
  match fs path with
  | FileNotFound =>
      load_sources fs default_path file_path = Returned []
      /\ forall query, search_sources [] query = []
  | FileText text =>
      exists (b : string) (bs : list string),
        load_sources fs default_path file_path = Returned (b :: bs)
        /\ Py.join (nl +:+ "---" +:+ nl) (b :: bs) = text
        /\ Forall (fun block => Py.contains (nl +:+ "---" +:+ nl) block = false)
                  (b :: bs)
        /\ cuts_leftmost (nl +:+ "---" +:+ nl) (nl +:+ "---") b bs
  | ReadFailed e => load_sources fs default_path file_path = Raised e
  end.
Proof.
  intros path. unfold load_sources. fold path.
  destruct (fs path) as [text| |e]; [| now split | reflexivity].
  unfold Py.split, block_separator.
  change (nl +:+ "---" +:+ nl)
    with (String (ascii_of_nat 10) ("---" +:+ nl)).
  pose proof (split_go_join (ascii_of_nat 10) ("---" +:+ nl) text 0) as Hjoin.
  pose proof (split_go_free (ascii_of_nat 10) ("---" +:+ nl) text 0) as Hfree.
  pose proof (split_go_leftmost (ascii_of_nat 10) ("---" +:+ nl)
                (nl +:+ "---") (ascii_of_nat 10) text 0 eq_refl) as Hleft.
  destruct (Py.split_go (String (ascii_of_nat 10) ("---" +:+ nl)) 0 text)
    as [b bs].
  cbn [fst snd] in *. exists b, bs.
  split; [reflexivity |]. split; [exact Hjoin |].
  split; [now constructor | exact Hleft].
Qed.

(** C9 as first stated, with a cut at every line of three hyphens that
    has a line feed on both sides, fails on two such lines in a row: read
    line by line the text below has the blocks ["a"], [""] and ["b"];
    [load_sources] cuts once and gives ["a"] and the block that starts
    with the second line of hyphens. *)
Lemma C9_adjacent_separator_lines_cut_once :
  let text := "a" +:+ nl +:+ "---" +:+ nl +:+ "---" +:+ nl +:+ "b" in
  load_sources (fun _ => FileText text) "sources.txt" None
    = Returned ["a"; "---" +:+ nl +:+ "b"]
  /\ split_at_separator_lines text = ["a"; ""; "b"]
  /\ load_sources (fun _ => FileText text) "sources.txt" None
     <> Returned (split_at_separator_lines text).
Proof.
  vm_compute. split; [reflexivity |]. split; [reflexivity |]. discriminate.
Qed.

(** Two separator lines in a row share a line feed: the text is cut once,
    and the second line of hyphens opens the next block. A line of hyphens
    that opens or closes the text is no separator either. *)
Example split_adjacent_separators :
  Py.split ("a" +:+ nl +:+ "---" +:+ nl +:+ "---" +:+ nl +:+ "b")
           block_separator
  = ["a"; "---" +:+ nl +:+ "b"]
  /\ Py.split ("---" +:+ nl +:+ "a" +:+ nl +:+ "---") block_separator
     = ["---" +:+ nl +:+ "a" +:+ nl +:+ "---"]
  /\ Py.split ("a" +:+ nl +:+ "---" +:+ nl) block_separator = ["a"; ""].
Proof. vm_compute. repeat split. Qed.

(** ** Taking a marker out of a line *)

Lemma replace_go_skip (old new p s : string) :
  Py.replace_go old new (String.length p) (p +:+ s)
  = Py.replace_go old new 0 s.
Proof. induction p as [|c p IH]; str_simpl; [reflexivity | exact IH]. Qed.

Lemma replace_at_head (c : ascii) (old' new rest : string) :
  Py.replace (String c old' +:+ rest) (String c old') new
  = new +:+ Py.replace rest (String c old') new.
Proof.
  unfold Py.replace. rewrite append_cons. cbn [Py.replace_go].
  pose proof (prefix_append (String c old') rest) as Hp.
  rewrite append_cons in Hp. rewrite Hp.
  cbn [String.length]. rewrite Nat.sub_succ, Nat.sub_0_r.
  now rewrite replace_go_skip.
Qed.

Lemma replace_absent (old new s : string) :
  Py.contains old s = false -> Py.replace s old new = s.
Proof.
  unfold Py.replace. induction s as [|c s IH]; intros H; [reflexivity |].
  cbn [Py.contains] in H. apply orb_false_elim in H. destruct H as [H1 H2].
  cbn [Py.replace_go]. rewrite H1, IH by exact H2. reflexivity.
Qed.

(** On a line that has the marker at its head and nowhere after, the value
    of the field is the rest of the line, trimmed. *)
Lemma scanned_value_single_marker (c : ascii) (marker' rest : string) :
  Py.contains (String c marker') rest = false ->
  scanned_value (String c marker' +:+ rest) (String c marker') = Py.strip rest.
Proof.
  intros H. unfold scanned_value.
  now rewrite replace_at_head, append_nil_l, replace_absent.
Qed.

(** ** The scan of a block *)

Lemma prefix_cons (a b : ascii) (p s : string) :
  String.prefix (String a p) (String b s)
  = if ascii_dec a b then String.prefix p s else false.
Proof. reflexivity. Qed.

Lemma content_line_is_no_reference (line : string) :
  is_content_line line = true -> is_reference_line line = false.
Proof.
  unfold is_content_line, is_reference_line, Py.startswith.
  destruct line as [|c line]; [discriminate |].
  change "CONTENT:" with (String "C"%char "ONTENT:").
  change "URL:" with (String "U"%char "RL:").
  change "TITLE:" with (String "T"%char "ITLE:").
  rewrite !prefix_cons.
  destruct (ascii_dec "C"%char c) as [<-|]; [| discriminate].
  intros _.
  destruct (ascii_dec "U"%char "C"%char); [discriminate |].
  destruct (ascii_dec "T"%char "C"%char); [discriminate | reflexivity].
Qed.

Lemma scan_fold (lines : list string) (content source_ref : string) :
  fold_left scan_line lines (content, source_ref)
  = (match last (filter (fun line => is_content_line line = true) lines) with
     | Some line => scanned_value line "CONTENT:"
     | None => content
     end,
     match last (filter (fun line => is_reference_line line = true) lines) with
     | Some line => reference_of_line line
     | None => source_ref
     end).
Proof.
  induction lines as [|line lines IH] using rev_ind; [reflexivity |].
  rewrite fold_left_app, IH. cbn [fold_left]. rewrite !filter_app.
  unfold scan_line.
  destruct (Py.startswith line "CONTENT:") eqn:Ec.
  - pose proof (content_line_is_no_reference line Ec) as Er.
    rewrite (filter_cons_True _ line) by exact Ec.
    rewrite (filter_cons_False _ line) by (rewrite Er; discriminate).
    rewrite !filter_nil, app_nil_r, last_snoc. reflexivity.
  - rewrite (filter_cons_False (fun l => is_content_line l = true) line)
      by (unfold is_content_line; rewrite Ec; discriminate).
    rewrite filter_nil, app_nil_r.
    unfold reference_of_line.
    destruct (Py.startswith line "URL:") eqn:Eu.
    + rewrite (filter_cons_True _ line)
        by (unfold is_reference_line; now rewrite Eu).
      rewrite filter_nil, last_snoc, Eu. reflexivity.
    + destruct (Py.startswith line "TITLE:") eqn:Et.
      * rewrite (filter_cons_True _ line)
          by (unfold is_reference_line; now rewrite Eu, Et).
        rewrite filter_nil, last_snoc, Eu. reflexivity.
      * rewrite (filter_cons_False _ line)
          by (unfold is_reference_line; rewrite Eu, Et; discriminate).
        rewrite filter_nil, app_nil_r. reflexivity.
Qed.

Lemma scan_block_eq (src : string) :
  scan_block src = (last_content src, last_reference src).
Proof. unfold scan_block. now rewrite scan_fold. Qed.

(** ** The rendered answer *)

Lemma render_fold (sources : list string) (i : nat) (answer : string)
    (references : list string) :
  fold_left render_step sources (i, answer, references)
  = (i + length sources, answer +:+ content_body i sources,
     references ++ reference_list i sources).
Proof.
  revert i answer references.
  induction sources as [|src rest IH]; intros i answer references.
  - cbn. now rewrite Nat.add_0_r, append_empty_r, app_nil_r.
  - cbn [fold_left]. unfold render_step at 2. rewrite scan_block_eq, IH.
    cbn [length content_body reference_list].
    unfold content_entry, reference_entry.
    f_equal; [f_equal; [lia |] |].
    + destruct (Py.truthy (last_content src)).
      * now rewrite !append_assoc.
      * now rewrite append_nil_l.
    + destruct (Py.truthy (last_reference src)).
      * now rewrite <- app_assoc.
      * reflexivity.
Qed.

Lemma nonempty_false {A} (l : list A) : Py.nonempty l = false <-> l = [].
Proof. destruct l; simpl; split; congruence. Qed.

(** The answer of the responder when there is no error and some source. *)
Lemma responder_answer (state : AgentState) :
  error state = "" -> retrieved_sources state <> [] ->
  final_answer (responder_node state)
  = (answer_header (current_query state)
     +:+ content_body 1 (retrieved_sources state))
    +:+ match reference_list 1 (retrieved_sources state) with
        | [] => ""
        | references =>
            nl +:+ "=== REFERENCES ===" +:+ nl +:+ Py.join nl references
        end.
Proof.
  intros He Hs. unfold responder_node. rewrite He. cbn [Py.truthy].
  destruct (Py.nonempty (retrieved_sources state)) eqn:En;
    [| apply nonempty_false in En; contradiction].
  cbn [negb]. rewrite render_fold. cbn [app].
  destruct (reference_list 1 (retrieved_sources state)) as [|r rs];
    cbn [Py.nonempty final_answer set_final_answer].
  - rewrite append_empty_r. reflexivity.
  - unfold answer_header. rewrite !append_assoc. reflexivity.
Qed.

(** The scan keeps the last reference line, and the references section
    lists the entries in the order of the blocks: for every block the
    scan leaves what it stores for the last line that starts with
    ["URL:"] or ["TITLE:"]; and when some block has a reference, the
    answer ends with a line feed, ["=== REFERENCES ==="], a line feed,
    and the entries ["[i] <reference>"] joined by line feeds, [i] being
    the position of the block counted from 1. *)
Lemma references_section_of_last_lines (state : AgentState) :
  error state = "" ->
  reference_list 1 (retrieved_sources state) <> [] ->
  (forall src, snd (scan_block src) = last_reference src)
  /\ final_answer (responder_node state)
     = (answer_header (current_query state)
        +:+ content_body 1 (retrieved_sources state))
       +:+ nl +:+ "=== REFERENCES ===" +:+ nl
       +:+ Py.join nl (reference_list 1 (retrieved_sources state)).
Proof.
  intros He Hrefs.
  split; [intros src; now rewrite scan_block_eq |].
  rewrite responder_answer; [| exact He |].
  - destruct (reference_list 1 (retrieved_sources state));
      [contradiction | reflexivity].
  - intros Hnil. rewrite Hnil in Hrefs. now apply Hrefs.
Qed.

(** A title line after a URL line replaces its reference, and the other
    way round; a block without a reference still takes a number. *)
Example references_section_of_last_lines_example :
  let ocean :=
    "TITLE: Ocean Facts" +:+ nl +:+ "URL: http://example.com/ocean" +:+ nl
    +:+ "CONTENT: Oceans cover most of Earth." in
  let rivers :=
    "URL: http://example.com/rivers" +:+ nl +:+ "TITLE: Rivers" in
  let state := mkState [] "ocean rivers" [ocean; "no field"; rivers] "" "" in
  final_answer (responder_node state)
  = ("Answer based on sources for: 'ocean rivers'" +:+ nl +:+ nl
     +:+ "=== CONTENT ===" +:+ nl +:+ nl
     +:+ "[1] Oceans cover most of Earth." +:+ nl +:+ nl)
    +:+ nl +:+ "=== REFERENCES ===" +:+ nl
    +:+ Py.join nl ["[1] http://example.com/ocean"; "[3] Rivers"].
Proof. vm_compute. reflexivity. Qed.

(** On a line that has the marker at its head and nowhere after, what the
    scan stores is the text after the marker, trimmed. *)
Lemma scanned_value_is_text_after_marker (c : ascii) (marker' rest : string) :
  Py.contains (String c marker') rest = false ->
  scanned_value (String c marker' +:+ rest) (String c marker')
  = text_after_marker (String c marker' +:+ rest) (String c marker').
Proof.
  intros H. rewrite (scanned_value_single_marker c marker' rest H).
  unfold text_after_marker. f_equal.
  assert (Hs : forall p, Py.slice_from (String.length p) (p +:+ rest) = rest).
  { induction p as [|a p IH]; str_simpl; [now destruct rest | exact IH]. }
  now rewrite Hs.
Qed.

(** C3. The reference of a block is to be the value of its last line that
    starts with ["URL:"] or ["TITLE:"], that is the text after the marker,
    trimmed, listed as ["[i] <reference>"] in the references section. The
    scan deletes every occurrence of the marker from the line, not the
    leading one alone: in the block below the last reference line is
    ["URL: http://x.org/?next=URL:home"], the text after its marker is
    ["http://x.org/?next=URL:home"], and the reference recorded, and
    listed under index 1, is ["http://x.org/?next=home"]. *)
Theorem C3_reference_loses_inner_marker :
  let line := "URL: http://x.org/?next=URL:home" in
  let block := "TITLE: Home" +:+ nl +:+ line in
  last (filter (fun l => is_reference_line l = true) (lines_of_block block))
    = Some line
  /\ text_after_marker line "URL:" = "http://x.org/?next=URL:home"
  /\ snd (scan_block block) = "http://x.org/?next=home"
  /\ agent_invoke elements (program_tools [block]) (mkState [] "home" [] "" "")
     = Returned
         (mkState [] "home" [block]
            ("Answer based on sources for: 'home'" +:+ nl +:+ nl
             +:+ "=== CONTENT ===" +:+ nl +:+ nl
             +:+ nl +:+ "=== REFERENCES ===" +:+ nl
             +:+ "[1] http://x.org/?next=home") "",
          [planner; researcher; responder]).
Proof. vm_compute. repeat split. Qed.

(** C4. The content of a block is to be the text after the marker
    ["CONTENT:"] of a line that starts with it, trimmed, with the rest of
    the line kept as it is, and the body is to hold ["[i] <content>"] and
    a blank line. The scan takes every occurrence of the marker out of
    the line, not the leading one alone: on the block
    ["CONTENT: a CONTENT: b"] the text after the marker is
    ["a CONTENT: b"], while the content extracted, and rendered in the
    body under index 1, is ["a  b"]. *)
Theorem C4_content_loses_inner_marker :
  let line := "CONTENT: a CONTENT: b" in
  Py.startswith line "CONTENT:" = true
  /\ Py.strip (Py.slice_from (String.length "CONTENT:") line) = "a CONTENT: b"
  /\ fst (scan_block line) = "a  b"
  /\ agent_invoke elements (program_tools [line]) (mkState [] "a" [] "" "")
     = Returned
         (mkState [] "a" [line]
            ("Answer based on sources for: 'a'" +:+ nl +:+ nl
             +:+ "=== CONTENT ===" +:+ nl +:+ nl
             +:+ "[1] a  b" +:+ nl +:+ nl) "",
          [planner; researcher; responder]).
Proof. vm_compute. repeat split. Qed.

(** Where the marker occurs once, at the head of the last content line,
    the block gets the text after it, trimmed, and the body gets the entry
    of the block. *)
Lemma content_of_clean_block (src rest : string) :
  last (filter (fun line => is_content_line line = true) (lines_of_block src))
    = Some ("CONTENT:" +:+ rest) ->
  Py.contains "CONTENT:" rest = false ->
  fst (scan_block src) = Py.strip rest.
Proof.
  intros Hlast Hfree. rewrite scan_block_eq. cbn [fst].
  unfold last_content. rewrite Hlast.
  now apply (scanned_value_single_marker "C"%char "ONTENT:").
Qed.

(** ** Between turns *)

(** The loop hands the next turn a state with the error, the final answer
    and the retrieved sources cleared, and the query added to the history. *)
Lemma end_of_turn_clears (state : AgentState) (user_input : string) :
  error (end_of_turn state user_input) = ""
  /\ final_answer (end_of_turn state user_input) = ""
  /\ retrieved_sources (end_of_turn state user_input) = []
  /\ conversation_history (end_of_turn state user_input)
     = conversation_history state ++ [user_input].
Proof. unfold end_of_turn. cbn. auto. Qed.

(** * Further properties *)

(** ** Characters *)

Ltac each_char c :=
  destruct c as [[] [] [] [] [] [] [] []]; vm_compute; reflexivity.

Lemma lower_char_idem (c : ascii) :
  Py.lower_char (Py.lower_char c) = Py.lower_char c.
Proof. each_char c. Qed.

Lemma isword_lower_char (c : ascii) :
  Py.isword (Py.lower_char c) = Py.isword c.
Proof. each_char c. Qed.

Lemma isspace_lower_char (c : ascii) :
  Py.isspace (Py.lower_char c) = Py.isspace c.
Proof. each_char c. Qed.

Lemma word_is_no_space (c : ascii) : Py.isword c && Py.isspace c = false.
Proof. each_char c. Qed.

Lemma lower_idem (s : string) : Py.lower (Py.lower s) = Py.lower s.
Proof.
  induction s as [|c s IH]; cbn [Py.lower]; [reflexivity |].
  now rewrite lower_char_idem, IH.
Qed.

Lemma all_chars_impl (p q : ascii -> bool) (s : string) :
  (forall c, p c = true -> q c = true) ->
  all_chars p s = true -> all_chars q s = true.
Proof.
  intros Hpq. induction s as [|c s IH]; cbn [all_chars]; [reflexivity |].
  intros H. apply andb_true_iff in H. destruct H as [Hc Hs].
  now rewrite (Hpq c Hc), IH.
Qed.

Lemma all_chars_lower_fixed (s : string) :
  all_chars (fun c => Ascii.eqb (Py.lower_char c) c) s = true ->
  Py.lower s = s.
Proof.
  induction s as [|c s IH]; cbn [all_chars Py.lower]; [reflexivity |].
  intros H. apply andb_true_iff in H. destruct H as [Hc Hs].
  apply Ascii.eqb_eq in Hc. now rewrite Hc, IH.
Qed.

(** ** Splitting on whitespace *)

Lemma split_ws_cons (c : ascii) (s : string) :
  Py.split_ws (String c s)
  = if Py.isspace c then Py.split_ws s
    else String c (fst (Py.split_ws_go s)) :: snd (Py.split_ws_go s).
Proof.
  unfold Py.split_ws. cbn [Py.split_ws_go].
  destruct (Py.split_ws_go s) as [w ws]. now destruct (Py.isspace c).
Qed.

Lemma split_ws_nil_iff (s : string) :
  Py.split_ws s = [] <-> all_chars Py.isspace s = true.
Proof.
  induction s as [|c s IH]; [split; reflexivity |].
  rewrite split_ws_cons. cbn [all_chars].
  destruct (Py.isspace c); [exact IH | split; discriminate].
Qed.

(** The words [split_ws_go] yields are not empty, and their characters
    are characters of the text that are no whitespace. *)
Lemma split_ws_go_chars (p : ascii -> bool) (s : string) :
  all_chars p s = true ->
  all_chars (fun c => p c && negb (Py.isspace c)) (fst (Py.split_ws_go s))
    = true
  /\ Forall (fun w => Py.truthy w = true
                      /\ all_chars (fun c => p c && negb (Py.isspace c)) w
                         = true)
            (snd (Py.split_ws_go s)).
Proof.
  induction s as [|c s IH]; cbn [all_chars Py.split_ws_go];
    [intros _; split; [reflexivity | constructor] |].
  intros H. apply andb_true_iff in H. destruct H as [Hc Hs].
  destruct (IH Hs) as [Hw Hws]. destruct (Py.split_ws_go s) as [w ws].
  cbn [fst snd] in *. destruct (Py.isspace c) eqn:Esp; cbn [fst snd].
  - split; [reflexivity |]. unfold Py.push_word.
    destruct (Py.truthy w) eqn:Et; [constructor; auto | exact Hws].
  - split; [| exact Hws]. cbn [all_chars]. now rewrite Hc, Esp, Hw.
Qed.

Lemma split_ws_chars (p : ascii -> bool) (s w : string) :
  all_chars p s = true -> w ∈ Py.split_ws s ->
  Py.truthy w = true
  /\ all_chars (fun c => p c && negb (Py.isspace c)) w = true.
Proof.
  intros Hs Hw. destruct (split_ws_go_chars p s Hs) as [H1 H2].
  unfold Py.split_ws in Hw. destruct (Py.split_ws_go s) as [w0 ws].
  cbn [fst snd] in *. unfold Py.push_word in Hw.
  rewrite Forall_forall in H2.
  destruct (Py.truthy w0) eqn:Et; [| now apply H2].
  apply elem_of_cons in Hw. destruct Hw as [->|Hw]; [auto | now apply H2].
Qed.

(** ** The tokenizer *)

Lemma normalized_chars (text : string) :
  all_chars token_char (Py.re_delete not_word_or_space (Py.lower text)) = true.
Proof.
  induction text as [|c text IH]; cbn [Py.lower Py.re_delete];
    [reflexivity |].
  destruct (not_word_or_space (Py.lower_char c)) eqn:E; [exact IH |].
  cbn [all_chars]. rewrite IH, andb_true_r. unfold token_char.
  unfold not_word_or_space in E. apply negb_false_iff in E.
  rewrite E, lower_char_idem. cbn. apply Ascii.eqb_refl.
Qed.

Lemma tokenize_lower (text : string) :
  tokenize (Py.lower text) = tokenize text.
Proof. unfold tokenize. now rewrite lower_idem. Qed.

(** X1. The tokenizer does not look at the case of the letters: a text
    and its lower-case form have the same tokens. *)
Theorem tokenize_ignores_case (text : string) :
  tokenize (Py.lower text) = tokenize text.
Proof. apply tokenize_lower. Qed.

(** X2. Every token is a non-empty string of word characters (letters,
    digits, the underscore) in lower case: no whitespace and no
    punctuation gets into a token. *)
Theorem tokens_are_lower_case_words (text w : string) :
  w ∈ tokenize text ->
  w <> "" /\ all_chars Py.isword w = true /\ Py.lower w = w.
Proof.
  unfold tokenize. intros Hw. apply elem_of_list_to_set in Hw.
  destruct (split_ws_chars token_char _ w (normalized_chars text) Hw)
    as [Ht Hc].
  split; [now apply truthy_true |]. split.
  - revert Hc. apply all_chars_impl. intros c H. unfold token_char in H.
    destruct (Py.isword c), (Py.isspace c),
      (Ascii.eqb (Py.lower_char c) c); cbn in H; congruence.
  - apply all_chars_lower_fixed. revert Hc. apply all_chars_impl.
    intros c H. unfold token_char in H.
    apply andb_true_iff in H. destruct H as [H _].
    apply andb_true_iff in H. tauto.
Qed.

Lemma list_to_set_nil_iff (l : list string) :
  (list_to_set l : gset string) = ∅ <-> l = [].
Proof.
  destruct l as [|x l]; [split; reflexivity |].
  split; [| discriminate]. intros H.
  assert (Hx : x ∈ (∅ : gset string)).
  { rewrite <- H. apply elem_of_list_to_set. left. }
  now apply elem_of_empty in Hx.
Qed.

Lemma char_kept_or_deleted (c : ascii) :
  if not_word_or_space (Py.lower_char c)
  then Py.isword c = false
  else Py.isspace (Py.lower_char c) = negb (Py.isword c).
Proof. each_char c. Qed.

Lemma normalized_all_space (text : string) :
  all_chars Py.isspace (Py.re_delete not_word_or_space (Py.lower text))
  = all_chars (fun c => negb (Py.isword c)) text.
Proof.
  induction text as [|c text IH]; cbn [Py.lower Py.re_delete all_chars];
    [reflexivity |].
  pose proof (char_kept_or_deleted c) as Hc.
  destruct (not_word_or_space (Py.lower_char c)).
  - now rewrite Hc, IH.
  - cbn [all_chars]. now rewrite Hc, IH.
Qed.

Lemma tokenize_nil_iff (text : string) :
  tokenize text = ∅ <-> all_chars (fun c => negb (Py.isword c)) text = true.
Proof.
  unfold tokenize.
  now rewrite list_to_set_nil_iff, split_ws_nil_iff, normalized_all_space.
Qed.

(** X3. A text has no token exactly when none of its characters is a word
    character: punctuation and whitespace alone give the empty token
    set, and one letter, digit or underscore is enough for a token. *)
Theorem tokenize_empty_iff (text : string) :
  tokenize text = ∅ <-> all_chars (fun c => negb (Py.isword c)) text = true.
Proof. apply tokenize_nil_iff. Qed.

(** ** Trimming *)

Lemma rstrip_idem (s : string) : Py.rstrip (Py.rstrip s) = Py.rstrip s.
Proof.
  induction s as [|c s IH]; [reflexivity |]. cbn [Py.rstrip].
  destruct (Py.rstrip s) as [|d r] eqn:E.
  - destruct (Py.isspace c) eqn:Ec; [reflexivity |].
    cbn [Py.rstrip]. now rewrite Ec.
  - cbn [Py.rstrip] in *. now rewrite IH.
Qed.

Lemma rstrip_fixed_tail (c : ascii) (s : string) :
  Py.rstrip (String c s) = String c s -> Py.rstrip s = s.
Proof.
  cbn [Py.rstrip]. destruct (Py.rstrip s) as [|d r].
  - destruct (Py.isspace c); [discriminate | now intros [= <-]].
  - now intros [= <-].
Qed.

Lemma rstrip_fixed_lstrip (s : string) :
  Py.rstrip s = s -> Py.rstrip (Py.lstrip s) = Py.lstrip s.
Proof.
  induction s as [|c s IH]; [reflexivity |]. intros H. cbn [Py.lstrip].
  destruct (Py.isspace c); [| exact H].
  apply IH. now apply rstrip_fixed_tail in H.
Qed.

Lemma lstrip_idem (s : string) : Py.lstrip (Py.lstrip s) = Py.lstrip s.
Proof.
  induction s as [|c s IH]; [reflexivity |]. cbn [Py.lstrip].
  destruct (Py.isspace c) eqn:Ec; [exact IH |]. cbn [Py.lstrip].
  now rewrite Ec.
Qed.

Lemma strip_idem (s : string) : Py.strip (Py.strip s) = Py.strip s.
Proof.
  unfold Py.strip.
  rewrite (rstrip_fixed_lstrip (Py.rstrip s) (rstrip_idem s)).
  apply lstrip_idem.
Qed.

Lemma rstrip_margin (s : string) :
  exists post, s = Py.rstrip s +:+ post /\ all_chars Py.isspace post = true.
Proof.
  induction s as [|c s (post & Hs & Hp)]; [now exists "" |].
  cbn [Py.rstrip]. destruct (Py.rstrip s) as [|d r] eqn:E.
  - rewrite append_nil_l in Hs. subst post.
    destruct (Py.isspace c) eqn:Ec.
    + exists (String c s). split; [reflexivity |].
      cbn [all_chars]. now rewrite Ec, Hp.
    + exists s. split; [reflexivity | exact Hp].
  - exists post. split; [| exact Hp]. rewrite append_cons. now f_equal.
Qed.

Lemma lstrip_margin (s : string) :
  exists pre, s = pre +:+ Py.lstrip s /\ all_chars Py.isspace pre = true.
Proof.
  induction s as [|c s (pre & Hs & Hp)]; [now exists "" |].
  cbn [Py.lstrip]. destruct (Py.isspace c) eqn:Ec.
  - exists (String c pre). split; [rewrite append_cons; now f_equal |].
    cbn [all_chars]. now rewrite Ec, Hp.
  - now exists "".
Qed.

Lemma strip_margins (s : string) :
  exists pre post,
    s = pre +:+ Py.strip s +:+ post
    /\ all_chars Py.isspace pre = true /\ all_chars Py.isspace post = true.
Proof.
  destruct (rstrip_margin s) as (post & Hs & Hpost).
  destruct (lstrip_margin (Py.rstrip s)) as (pre & Hr & Hpre).
  exists pre, post. split; [| now split].
  unfold Py.strip. rewrite <- append_assoc, <- Hr. exact Hs.
Qed.

(** ** More on the retriever *)

(** X4. Every block the search returns comes from a block of the corpus
    that shares a token with the query, less the whitespace at its two
    ends and nothing else; trimming it again changes nothing. *)
Theorem search_results_are_trimmed_blocks
    (SOURCES : list string) (query result : string) :
  result ∈ search_sources SOURCES query ->
  Py.strip result = result
  /\ exists block pre post,
       block ∈ SOURCES
       /\ tokenize query ∩ tokenize block ≠ ∅
       /\ block = pre +:+ result +:+ post
       /\ all_chars Py.isspace pre = true
       /\ all_chars Py.isspace post = true.
Proof.
  rewrite search_sources_eq. intros H.
  apply list_elem_of_fmap in H. destruct H as (block & -> & Hin).
  apply list_elem_of_filter in Hin. destruct Hin as [Hov Hin].
  split; [apply strip_idem |].
  destruct (strip_margins block) as (pre & post & Hb & Hpre & Hpost).
  exists block, pre, post. auto.
Qed.

Lemma search_results_are_trimmed_blocks_witness :
  Py.strip "URL: rivers and lakes" = "URL: rivers and lakes"
  /\ exists block pre post,
       block ∈ ["TITLE: Deserts"; " URL: rivers and lakes "]
       /\ tokenize "Lakes?" ∩ tokenize block ≠ ∅
       /\ block = pre +:+ "URL: rivers and lakes" +:+ post
       /\ all_chars Py.isspace pre = true
       /\ all_chars Py.isspace post = true.
Proof.
  apply (search_results_are_trimmed_blocks
           ["TITLE: Deserts"; " URL: rivers and lakes "] "Lakes?").
  vm_compute. left.
Defined.

(** X5. Searching a corpus made of two parts gives the matches of the
    first part followed by the matches of the second. *)
Theorem search_sources_app (A B : list string) (query : string) :
  search_sources (A ++ B) query
  = search_sources A query ++ search_sources B query.
Proof. rewrite !search_sources_eq, filter_app. apply map_app. Qed.

(** X6. The search does not look at the case of the query, nor at the
    case of the blocks when it matches them: it finds the same blocks
    for a query and for its lower-case form, and a block is found exactly
    when its lower-case form would be. *)
Theorem search_ignores_case (SOURCES : list string) (query block : string) :
  search_sources SOURCES (Py.lower query) = search_sources SOURCES query
  /\ (search_sources [Py.lower block] query = []
      <-> search_sources [block] query = []).
Proof.
  split.
  - unfold search_sources. now rewrite tokenize_lower.
  - rewrite !search_sources_nil_iff, !Forall_singleton.
    now rewrite tokenize_lower.
Qed.

(** ** More on the summarizer *)

Lemma size_union_le (X Y : gset string) : size (X ∪ Y) <= size X + size Y.
Proof.
  rewrite size_union_alt.
  assert (size (Y ∖ X) <= size Y); [| lia].
  apply subseteq_size. intros x Hx. apply elem_of_difference in Hx. tauto.
Qed.

Lemma size_union_list_le (f : string -> gset string) (n : nat)
    (sources : list string) :
  (forall src, size (f src) <= n) ->
  size (⋃ (map f sources)) <= n * length sources.
Proof.
  intros Hf. induction sources as [|src rest IH]; cbn [map length].
  - rewrite union_list_nil, size_empty. lia.
  - rewrite union_list_cons.
    pose proof (size_union_le (f src) (⋃ map f rest)).
    pose proof (Hf src). lia.
Qed.

(** X7. Whatever order Python lists a set in, the summary counts at most
    as many blocks with ["URL:"] and with ["TITLE:"] as there are blocks,
    and holds at most 3 topics per block. *)
Theorem summary_is_bounded (list_of_set : gset string -> list string)
    (sources : list string) :
  let summary := summarize_sources list_of_set sources in
  url_sources summary <= total_sources summary
  /\ title_sources summary <= total_sources summary
  /\ size (topics summary) <= 3 * total_sources summary.
Proof.
  intros summary. unfold summary, summarize_sources.
  rewrite summarize_fold. cbn [total_sources url_sources title_sources topics].
  rewrite (left_id_L ∅ (∪)).
  split; [apply length_filter |]. split; [apply length_filter |].
  apply size_union_list_le. intros src.
  etransitivity; [apply size_list_to_set_le |]. rewrite length_take. lia.
Qed.

(** X8. The summary of two sequences of blocks put end to end adds up the
    counts of the two summaries and unites their topics. *)
Theorem summary_of_app (list_of_set : gset string -> list string)
    (A B : list string) :
  let sa := summarize_sources list_of_set A in
  let sb := summarize_sources list_of_set B in
  summarize_sources list_of_set (A ++ B)
  = mkSummary (total_sources sa + total_sources sb)
              (url_sources sa + url_sources sb)
              (title_sources sa + title_sources sb)
              (topics sa ∪ topics sb).
Proof.
  intros sa sb. unfold sa, sb, summarize_sources.
  rewrite !summarize_fold.
  cbn [total_sources url_sources title_sources topics].
  rewrite !filter_app, !length_app, map_app, union_list_app_L.
  rewrite !(left_id_L ∅ (∪)). reflexivity.
Qed.

(** ** More on the turn *)

Lemma researcher_keeps (list_of_set : gset string -> list string)
    (tools : Tools) (state : AgentState) :
  conversation_history (researcher_node list_of_set tools state)
    = conversation_history state
  /\ current_query (researcher_node list_of_set tools state)
     = current_query state
  /\ final_answer (researcher_node list_of_set tools state)
     = final_answer state.
Proof.
  unfold researcher_node, researcher_try.
  destruct (call_search tools (current_query state)) as [sources|e];
    [| now cbn].
  destruct (Py.nonempty sources); [| now cbn].
  destruct (call_print tools _); now cbn.
Qed.

Lemma responder_keeps_history (state : AgentState) :
  conversation_history (responder_node state) = conversation_history state.
Proof.
  unfold responder_node.
  destruct (Py.truthy (error state)); [reflexivity |].
  destruct (negb (Py.nonempty (retrieved_sources state))); [reflexivity |].
  now destruct (fold_left render_step _ _) as [[i answer] references].
Qed.

(** X9. Whatever the tools do, a turn returns, well within the step limit
    of the graph: it runs the planner, the researcher exactly when the
    query has a character other than whitespace, then the responder; and
    it leaves the conversation history and the query as they were. *)
Theorem turn_returns_and_keeps_the_history
    (list_of_set : gset string -> list string) (tools : Tools)
    (state : AgentState) :
  exists state' path,
    agent_invoke list_of_set tools state = Returned (state', path)
    /\ path = (if Py.truthy (Py.strip (current_query state))
               then [planner; researcher; responder]
               else [planner; responder])
    /\ conversation_history state' = conversation_history state
    /\ current_query state' = current_query state.
Proof.
  rewrite agent_invoke_eq.
  destruct (planner_keeps state) as (Hq & _ & Hh).
  destruct (researcher_keeps list_of_set tools (planner_node state))
    as (Hrh & Hrq & _).
  destruct (Py.truthy (Py.strip (current_query state)));
    do 2 eexists; (split; [reflexivity |]); (split; [reflexivity |]).
  - rewrite responder_keeps_history, Hrh, Hh.
    destruct (responder_keeps
                (researcher_node list_of_set tools (planner_node state)))
      as (_ & _ & ->).
    now rewrite Hrq, Hq.
  - rewrite responder_keeps_history, Hh.
    destruct (responder_keeps (planner_node state)) as (_ & _ & ->).
    now rewrite Hq.
Qed.

Lemma agent_invoke_from_cleared
    (list_of_set : gset string -> list string) (tools : Tools)
    (state : AgentState) :
  agent_invoke list_of_set tools state
  = agent_invoke list_of_set tools
      (mkState (conversation_history state) (current_query state)
         (if Py.truthy (Py.strip (current_query state))
          then [] else retrieved_sources state)
         "" "").
Proof.
  destruct state as [h q r f e]. rewrite !agent_invoke_eq.
  cbn [current_query conversation_history retrieved_sources].
  unfold planner_node. cbn [current_query].
  destruct (Py.truthy (Py.strip q)); cbn [negb]; [| reflexivity].
  unfold researcher_node, researcher_try.
  cbn [set_error current_query conversation_history retrieved_sources
       final_answer error].
  destruct (call_search tools q) as [sources|ex]; [| reflexivity].
  destruct (Py.nonempty sources); [| reflexivity].
  now destruct (call_print tools _).
Qed.

(** X10. A turn never reuses the error or the final answer it is handed:
    its result is the one it gives from the same history and query with
    both cleared. The retrieved sources it is handed are dropped as well,
    unless the query is blank: then the researcher does not run and they
    stay in the state. *)
Theorem turn_drops_stale_fields
    (list_of_set : gset string -> list string) (tools : Tools)
    (state : AgentState) :
  agent_invoke list_of_set tools state
  = agent_invoke list_of_set tools
      (mkState (conversation_history state) (current_query state)
         (if Py.truthy (Py.strip (current_query state))
          then [] else retrieved_sources state)
         "" "").
Proof. apply agent_invoke_from_cleared. Qed.

Lemma researcher_with_program_tools
    (list_of_set : gset string -> list string) (SOURCES : list string)
    (state : AgentState) :
  researcher_node list_of_set (program_tools SOURCES) state
  = set_retrieved_sources (search_sources SOURCES (current_query state)) state.
Proof.
  unfold researcher_node, researcher_try, program_tools.
  cbn [call_search call_print].
  now destruct (Py.nonempty (search_sources SOURCES (current_query state))).
Qed.

(** X11. With the tools of the program a turn ends with an error only for
    a blank query, and the error is then ["Empty query received."];
    otherwise the error is empty and the retrieved sources are what the
    search returns for the query. *)
Theorem program_turn_outcome
    (list_of_set : gset string -> list string) (SOURCES : list string)
    (state : AgentState) :
  exists state' path,
    agent_invoke list_of_set (program_tools SOURCES) state
      = Returned (state', path)
    /\ error state'
       = (if Py.truthy (Py.strip (current_query state))
          then "" else "Empty query received.")
    /\ retrieved_sources state'
       = (if Py.truthy (Py.strip (current_query state))
          then search_sources SOURCES (current_query state)
          else retrieved_sources state).
Proof.
  rewrite agent_invoke_eq. pose proof (planner_error state) as He.
  destruct (planner_keeps state) as (Hq & Hr & _).
  destruct (Py.truthy (Py.strip (current_query state)));
    do 2 eexists; (split; [reflexivity |]).
  - rewrite researcher_with_program_tools.
    destruct (responder_keeps
                (set_retrieved_sources
                   (search_sources SOURCES
                      (current_query (planner_node state)))
                   (planner_node state))) as (-> & -> & _).
    cbn. now rewrite He, Hq.
  - destruct (responder_keeps (planner_node state)) as (-> & -> & _).
    now rewrite He, Hr.
Qed.

(** ** More on the responder *)

Lemma no_field_body (sources : list string) (i : nat) :
  Forall (fun src => scan_block src = ("", "")) sources ->
  content_body i sources = "" /\ reference_list i sources = [].
Proof.
  intros H. revert i. induction H as [|src rest Hsrc _ IH]; intros i;
    [now split |].
  cbn [content_body reference_list]. destruct (IH (S i)) as [-> ->].
  rewrite scan_block_eq in Hsrc. injection Hsrc as Hc Hr.
  unfold content_entry, reference_entry. now rewrite Hc, Hr.
Qed.

(** X12. When there is no error and none of the retrieved blocks has a
    content or a reference line, the answer is the header alone: the line
    that names the query, a blank line, ["=== CONTENT ==="] and a blank
    line, with no body and no references section. *)
Theorem answer_of_blocks_without_fields (state : AgentState) :
  error state = "" ->
  retrieved_sources state <> [] ->
  Forall (fun src => scan_block src = ("", "")) (retrieved_sources state) ->
  final_answer (responder_node state)
  = "Answer based on sources for: '" +:+ current_query state +:+ "'"
    +:+ nl +:+ nl +:+ "=== CONTENT ===" +:+ nl +:+ nl.
Proof.
  intros He Hs Hall. rewrite (responder_answer state He Hs).
  destruct (no_field_body _ 1 Hall) as [-> ->].
  rewrite !append_empty_r. unfold answer_header.
  now rewrite !append_assoc.
Qed.

Lemma answer_of_blocks_without_fields_witness :
  final_answer
    (responder_node
       (mkState [] "rivers" ["rivers run to the sea";
                            "rivers" +:+ nl +:+ "  URL: indented"] "" ""))
  = "Answer based on sources for: '" +:+ "rivers" +:+ "'"
    +:+ nl +:+ nl +:+ "=== CONTENT ===" +:+ nl +:+ nl.
Proof.
  apply (answer_of_blocks_without_fields
           (mkState [] "rivers"
              ["rivers run to the sea"; "rivers" +:+ nl +:+ "  URL: indented"]
              "" "")).
  - reflexivity.
  - discriminate.
  - constructor; [vm_compute; reflexivity |].
    constructor; [vm_compute; reflexivity | constructor].
Defined.

Lemma reference_list_elem (sources : list string) (i : nat) (entry : string) :
  entry ∈ reference_list i sources
  <-> exists k src,
        sources !! k = Some src
        /\ last_reference src <> ""
        /\ entry = "[" +:+ Py.str_of_nat (i + k) +:+ "] " +:+ last_reference src.
Proof.
  revert i. induction sources as [|src rest IH]; intros i.
  - cbn [reference_list]. split; [intros H; now apply elem_of_nil in H |].
    intros (k & s & Hk & _). now rewrite lookup_nil in Hk.
  - cbn [reference_list]. rewrite elem_of_app, IH. unfold reference_entry.
    split.
    + intros [H|(k & s & Hk & Hs & He)].
      * destruct (Py.truthy (last_reference src)) eqn:Et;
          [| now apply elem_of_nil in H].
        apply list_elem_of_singleton in H. exists 0, src.
        rewrite Nat.add_0_r. split; [reflexivity |].
        split; [now apply truthy_true | exact H].
      * exists (S k), s. split; [exact Hk |]. split; [exact Hs |].
        now rewrite Nat.add_succ_r.
    + intros (k & s & Hk & Hs & He). destruct k as [|k].
      * left. cbn in Hk. injection Hk as <-.
        apply truthy_true in Hs. rewrite Hs, Nat.add_0_r in *.
        subst entry. apply list_elem_of_singleton. reflexivity.
      * right. exists k, s. split; [exact Hk |]. split; [exact Hs |].
        now rewrite Nat.add_succ_r in He.
Qed.

(** X13. The number in a reference entry is the position of its block
    among all the retrieved blocks, counted from 1: the loop records
    ["[k+1] <reference>"] exactly for the blocks, at position [k], whose
    scan leaves a reference, so blocks without one still use up a
    number. *)
Theorem reference_numbers_count_every_block
    (sources : list string) (answer entry : string) :
  entry ∈ snd (fold_left render_step sources (1, answer, []))
  <-> exists k src,
        sources !! k = Some src
        /\ snd (scan_block src) <> ""
        /\ entry = "[" +:+ Py.str_of_nat (S k) +:+ "] "
                   +:+ snd (scan_block src).
Proof.
  rewrite render_fold. cbn [snd app]. rewrite reference_list_elem.
  split; intros (k & src & Hk & Hs & He); exists k, src;
    rewrite scan_block_eq in *; cbn [snd] in *; auto.
Qed.

(** X14. On a line that has one of the three markers at its head and
    nowhere after, the scan sets the field of that marker to the rest of
    the line, trimmed, and leaves the other field alone: the content for
    ["CONTENT:"], the reference for ["URL:"] and ["TITLE:"]. *)
Theorem scan_line_on_single_marker
    (marker rest : string) (fields : string * string) :
  In marker ["CONTENT:"; "URL:"; "TITLE:"] ->
  Py.contains marker rest = false ->
  scan_line fields (marker +:+ rest)
  = if String.eqb marker "CONTENT:"
    then (Py.strip rest, snd fields)
    else (fst fields, Py.strip rest).
Proof.
  intros Hin Hfree. destruct fields as [content source_ref].
  unfold scan_line, Py.startswith.
  destruct Hin as [<-|[<-|[<-|[]]]]; cbn [String.eqb fst snd].
  - rewrite prefix_append.
    pose proof (scanned_value_single_marker "C"%char "ONTENT:" rest Hfree) as H.
    unfold scanned_value in H. now rewrite H.
  - change ("URL:" +:+ rest) with (String "U"%char ("RL:" +:+ rest)).
    change "CONTENT:" with (String "C"%char "ONTENT:").
    rewrite prefix_cons.
    destruct (ascii_dec "C"%char "U"%char); [discriminate |].
    change (String "U"%char ("RL:" +:+ rest)) with ("URL:" +:+ rest).
    rewrite prefix_append.
    pose proof (scanned_value_single_marker "U"%char "RL:" rest Hfree) as H.
    unfold scanned_value in H. now rewrite H.
  - change ("TITLE:" +:+ rest) with (String "T"%char ("ITLE:" +:+ rest)).
    change "CONTENT:" with (String "C"%char "ONTENT:").
    change "URL:" with (String "U"%char "RL:").
    rewrite !prefix_cons.
    destruct (ascii_dec "C"%char "T"%char); [discriminate |].
    destruct (ascii_dec "U"%char "T"%char); [discriminate |].
    change (String "T"%char ("ITLE:" +:+ rest)) with ("TITLE:" +:+ rest).
    rewrite prefix_append.
    pose proof (scanned_value_single_marker "T"%char "ITLE:" rest Hfree) as H.
    unfold scanned_value in H. now rewrite H.
Qed.

Lemma scan_line_on_single_marker_witness :
  scan_line ("earlier content", "Ocean Facts")
            ("URL:" +:+ " http://example.com/ocean ")
  = if String.eqb "URL:" "CONTENT:"
    then (Py.strip " http://example.com/ocean ", snd ("earlier content", "Ocean Facts"))
    else (fst ("earlier content", "Ocean Facts"),
          Py.strip " http://example.com/ocean ").
Proof.
  apply (scan_line_on_single_marker "URL:" " http://example.com/ocean "
           ("earlier content", "Ocean Facts")).
  - right. left. reflexivity.
  - vm_compute. reflexivity.
Defined.

(** ** Joining and splitting *)

Lemma prefix_shorten (q x y : string) :
  String.prefix q (x +:+ y) = true ->
  String.length q <= String.length x ->
  String.prefix q x = true.
Proof.
  revert x; induction q as [|c q IH]; intros x H Hlen; [now destruct x |].
  destruct x as [|e x]; [simpl in Hlen; lia |].
  rewrite append_cons, prefix_cons in H. rewrite prefix_cons.
  destruct (ascii_dec c e); [| discriminate].
  apply IH; [exact H | simpl in Hlen; lia].
Qed.

Lemma split_go_skip (sep p s : string) :
  Py.split_go sep (String.length p) (p +:+ s) = Py.split_go sep 0 s.
Proof. induction p as [|c p IH]; str_simpl; [reflexivity | exact IH]. Qed.

Section Join.

Variable d : ascii.
Variable sep' : string.

Let sep : string := String d sep'.

Lemma split_go_at_separator (rest : string) :
  Py.split_go sep 0 (sep +:+ rest)
  = ("", fst (Py.split_go sep 0 rest) :: snd (Py.split_go sep 0 rest)).
Proof.
  pose proof (prefix_append sep rest) as Hp.
  subst sep. rewrite append_cons in *. cbn [Py.split_go]. rewrite Hp.
  cbn [String.length]. rewrite Nat.sub_succ, Nat.sub_0_r, split_go_skip.
  now destruct (Py.split_go (String d sep') 0 rest).
Qed.

Lemma split_go_last_block (b : string) :
  Py.contains sep b = false -> Py.split_go sep 0 b = (b, []).
Proof.
  induction b as [|c b IH]; intros H; [reflexivity |].
  cbn [Py.contains] in H. apply orb_false_elim in H. destruct H as [H1 H2].
  cbn [Py.split_go]. now rewrite H1, IH.
Qed.

Lemma split_go_block (p : string) (e : ascii) (b rest : string) :
  sep = p +:+ String e "" ->
  Py.contains sep (b +:+ p) = false ->
  Py.split_go sep 0 (b +:+ sep +:+ rest)
  = (b, fst (Py.split_go sep 0 rest) :: snd (Py.split_go sep 0 rest)).
Proof.
  intros Hsep. induction b as [|c b IH]; intros H.
  - rewrite append_nil_l. apply split_go_at_separator.
  - rewrite append_cons in *. cbn [Py.contains] in H.
    apply orb_false_elim in H. destruct H as [H1 H2].
    cbn [Py.split_go].
    destruct (String.prefix sep (String c (b +:+ sep +:+ rest))) eqn:E.
    + exfalso. rewrite Hsep in E at 2.
      assert (Heq : String c (b +:+ (p +:+ String e "") +:+ rest)
                    = String c (b +:+ p) +:+ (String e "" +:+ rest)).
      { rewrite append_cons. f_equal. now rewrite !append_assoc. }
      rewrite Heq in E.
      apply prefix_shorten in E; [congruence |].
      rewrite Hsep. cbn [String.length]. rewrite !length_append.
      cbn [String.length]. lia.
    + now rewrite (IH H2).
Qed.

Lemma split_join (p : string) (e : ascii) (b : string) (bs : list string) :
  sep = p +:+ String e "" ->
  Forall (fun block => Py.contains sep block = false) (b :: bs) ->
  cuts_leftmost sep p b bs ->
  Py.split (Py.join sep (b :: bs)) sep = b :: bs.
Proof.
  intros Hsep Hfree. unfold Py.split.
  enough (H : cuts_leftmost sep p b bs ->
              Py.split_go sep 0 (Py.join sep (b :: bs)) = (b, bs)).
  { intros Hcut. now rewrite (H Hcut). }
  revert b Hfree. induction bs as [|b' bs IH]; intros b Hfree Hcut.
  - apply split_go_last_block. now inversion Hfree.
  - rewrite join_two. cbn [cuts_leftmost] in Hcut. destruct Hcut as [Hb Hcut].
    rewrite (split_go_block p e b _ Hsep Hb).
    rewrite (IH b'); [reflexivity | now inversion Hfree | exact Hcut].
Qed.

End Join.

(** X15. A file written as blocks joined by the separator line is read
    back as those blocks, provided no block holds a separator and no
    separator starts inside a block and runs into the separator written
    after it. *)
Theorem load_sources_recovers_joined_blocks
    (fs : string -> read_result) (default_path : string)
    (file_path : option string) (b : string) (bs : list string) :
  Forall (fun block => Py.contains (nl +:+ "---" +:+ nl) block = false)
         (b :: bs) ->
  cuts_leftmost (nl +:+ "---" +:+ nl) (nl +:+ "---") b bs ->
  fs (match file_path with None => default_path | Some p => p end)
    = FileText (Py.join (nl +:+ "---" +:+ nl) (b :: bs)) ->
  load_sources fs default_path file_path = Returned (b :: bs).
Proof.
  intros Hfree Hcut Hfs. unfold load_sources. rewrite Hfs. f_equal.
  exact (split_join (ascii_of_nat 10) ("---" +:+ nl) (nl +:+ "---")
           (ascii_of_nat 10) b bs eq_refl Hfree Hcut).
Qed.

Lemma load_sources_recovers_joined_blocks_witness :
  load_sources
    (fun _ => FileText
                (Py.join (nl +:+ "---" +:+ nl)
                   ["TITLE: Oceans" +:+ nl +:+ "CONTENT: Salt water.";
                    ""; "URL: http://example.com/rivers" +:+ nl]))
    "sources.txt" None
  = Returned ["TITLE: Oceans" +:+ nl +:+ "CONTENT: Salt water.";
              ""; "URL: http://example.com/rivers" +:+ nl].
Proof.
  apply (load_sources_recovers_joined_blocks
           (fun _ => FileText
                (Py.join (nl +:+ "---" +:+ nl)
                   ["TITLE: Oceans" +:+ nl +:+ "CONTENT: Salt water.";
                    ""; "URL: http://example.com/rivers" +:+ nl]))
           "sources.txt" None).
  - repeat (constructor; [vm_compute; reflexivity |]). constructor.
  - vm_compute. repeat split.
  - reflexivity.
Defined.

(** ** The conversation *)

Lemma agent_invoke_history
    (list_of_set : gset string -> list string) (tools : Tools)
    (h : list string) (state : AgentState) :
  agent_invoke list_of_set tools (set_conversation_history h state)
  = match agent_invoke list_of_set tools state with
    | Returned (result, path) =>
        Returned (set_conversation_history h result, path)
    | Raised e => Raised e
    end.
Proof.
  destruct state as [h0 q r f e]. rewrite !agent_invoke_eq.
  unfold set_conversation_history at 1 2 3.
  cbn [current_query conversation_history retrieved_sources final_answer
       error].
  unfold planner_node. cbn [current_query].
  destruct (Py.truthy (Py.strip q)); cbn [negb].
  - unfold researcher_node, researcher_try.
    cbn [set_error current_query conversation_history retrieved_sources
         final_answer error].
    assert (Hresp : forall src err,
      responder_node (mkState h q src f err)
      = set_conversation_history h (responder_node (mkState h0 q src f err))).
    { intros src err. unfold responder_node.
      cbn [current_query retrieved_sources error].
      destruct (Py.truthy err); [reflexivity |].
      destruct (negb (Py.nonempty src)); [reflexivity |].
      now destruct (fold_left render_step src _) as [[i a] refs]. }
    destruct (call_search tools q) as [sources|ex];
      [destruct (Py.nonempty sources);
         [destruct (call_print tools _) |] |];
      unfold set_retrieved_sources, set_error;
      cbn [current_query conversation_history retrieved_sources
           final_answer error];
      now rewrite Hresp.
  - unfold responder_node. reflexivity.
Qed.

Lemma conversation_cons
    (list_of_set : gset string -> list string) (tools : Tools)
    (line : string) (lines : list string) (state : AgentState) :
  is_exit line = false ->
  exists result,
    agent_invoke list_of_set tools
      (set_current_query (Py.strip line) state)
    = Returned (result,
                if Py.truthy (Py.strip (Py.strip line))
                then [planner; researcher; responder]
                else [planner; responder])
    /\ conversation list_of_set tools (line :: lines) state
       = (result :: fst (fst (conversation list_of_set tools lines
                                (end_of_turn
                                   (set_current_query (Py.strip line) state)
                                   (Py.strip line)))),
          snd (fst (conversation list_of_set tools lines
                      (end_of_turn
                         (set_current_query (Py.strip line) state)
                         (Py.strip line)))),
          snd (conversation list_of_set tools lines
                 (end_of_turn
                    (set_current_query (Py.strip line) state)
                    (Py.strip line)))).
Proof.
  intros Hexit. unfold is_exit in Hexit. cbn [conversation].
  rewrite Hexit, agent_invoke_eq. cbn [current_query set_current_query].
  destruct (Py.truthy (Py.strip (Py.strip line)));
    eexists; (split; [reflexivity |]);
    now destruct (conversation list_of_set tools lines _) as [[rs st] how].
Qed.

Lemma conversation_spec
    (list_of_set : gset string -> list string) (tools : Tools)
    (lines : list string) (state : AgentState) :
  let run := conversation list_of_set tools lines state in
  conversation_history (snd (fst run))
    = conversation_history state ++ queries_before_exit lines
  /\ length (fst (fst run)) = length (queries_before_exit lines)
  /\ snd run = (if existsb is_exit lines then Exited
                else Crashed (Exception "EOF when reading a line"))
  /\ (retrieved_sources state = [] /\ final_answer state = ""
      /\ error state = "" ->
      retrieved_sources (snd (fst run)) = []
      /\ final_answer (snd (fst run)) = "" /\ error (snd (fst run)) = "").
Proof.
  revert state. induction lines as [|line lines IH]; intros state run.
  - subst run. cbn. now rewrite app_nil_r.
  - destruct (is_exit line) eqn:Hexit.
    + subst run. cbn [conversation queries_before_exit existsb].
      unfold is_exit in Hexit. rewrite Hexit. unfold is_exit. rewrite Hexit.
      cbn. now rewrite app_nil_r.
    + destruct (conversation_cons list_of_set tools line lines state Hexit)
        as (result & _ & Hrun).
      subst run. rewrite Hrun. cbn [queries_before_exit existsb fst snd].
      rewrite Hexit. cbn [orb length].
      specialize (IH (end_of_turn (set_current_query (Py.strip line) state)
                        (Py.strip line))).
      cbn zeta in IH. destruct IH as (Hh & Hl & Hhow & Hclear).
      split; [| split; [| split]].
      * rewrite Hh. unfold end_of_turn. cbn. now rewrite <- app_assoc.
      * now rewrite Hl.
      * exact Hhow.
      * intros _. apply Hclear. unfold end_of_turn. cbn. auto.
Qed.

(** X16. When the loop of [run_agent] ends, the conversation history is
    the lines read before the first [exit] (in any case, with any
    whitespace around it), stripped, one turn was run for each, and the
    error, the final answer and the retrieved sources are cleared. The
    loop ends by [exit] when some line is one, and by the [EOFError] of
    [input] when the lines run out. *)
Theorem run_agent_keeps_the_queries
    (list_of_set : gset string -> list string) (tools : Tools)
    (lines : list string) :
  let run := run_agent list_of_set tools lines in
  conversation_history (snd (fst run)) = queries_before_exit lines
  /\ length (fst (fst run)) = length (queries_before_exit lines)
  /\ retrieved_sources (snd (fst run)) = []
  /\ final_answer (snd (fst run)) = ""
  /\ error (snd (fst run)) = ""
  /\ snd run = (if existsb is_exit lines then Exited
                else Crashed (Exception "EOF when reading a line")).
Proof.
  intros run. subst run. unfold run_agent.
  destruct (conversation_spec list_of_set tools lines initial_state)
    as (Hh & Hl & Hhow & Hclear).
  destruct Hclear as (Hr & Hf & He); [now cbn |].
  rewrite Hh, Hl, Hhow, Hr, Hf, He. cbn [initial_state conversation_history app].
  repeat split.
Qed.

Lemma conversation_answers
    (list_of_set : gset string -> list string) (tools : Tools)
    (lines : list string) (state : AgentState) :
  retrieved_sources state = [] ->
  map final_answer (fst (fst (conversation list_of_set tools lines state)))
  = map (single_answer list_of_set tools) (queries_before_exit lines).
Proof.
  revert state. induction lines as [|line lines IH]; intros state Hr;
    [reflexivity |].
  destruct (is_exit line) eqn:Hexit.
  - cbn [conversation queries_before_exit]. rewrite Hexit.
    unfold is_exit in Hexit. now rewrite Hexit.
  - destruct (conversation_cons list_of_set tools line lines state Hexit)
      as (result & Hinv & Hrun).
    rewrite Hrun. cbn [queries_before_exit fst map]. rewrite Hexit.
    cbn [map]. rewrite IH by reflexivity. f_equal.
    unfold single_answer.
    rewrite agent_invoke_from_cleared in Hinv.
    cbn [set_current_query current_query conversation_history
         retrieved_sources] in Hinv.
    rewrite Hr in Hinv.
    assert (Hsame : (if Py.truthy (Py.strip (Py.strip line))
                     then [] else []) = ([] : list string))
      by now destruct (Py.truthy _).
    rewrite Hsame in Hinv.
    change (mkState (conversation_history state) (Py.strip line) [] "" "")
      with (set_conversation_history (conversation_history state)
              (mkState [] (Py.strip line) [] "" "")) in Hinv.
    rewrite agent_invoke_history in Hinv.
    destruct (agent_invoke list_of_set tools
                (mkState [] (Py.strip line) [] "" "")) as [[r path]|ex];
      [| discriminate].
    injection Hinv as <- _. reflexivity.
Qed.

(** X17. The answers of a conversation do not depend on what was asked
    before: the final answer of every turn of [run_agent] is the answer
    the same query gets when it is asked on its own in a first turn. *)
Theorem run_agent_answers_each_query_afresh
    (list_of_set : gset string -> list string) (tools : Tools)
    (lines : list string) :
  map final_answer (fst (fst (run_agent list_of_set tools lines)))
  = map (single_answer list_of_set tools) (queries_before_exit lines).
Proof. now apply conversation_answers. Qed.

(** ** Blank queries and blocks without a word *)

Lemma all_chars_app (p : ascii -> bool) (s t : string) :
  all_chars p (s +:+ t) = all_chars p s && all_chars p t.
Proof.
  induction s as [|c s IH]; str_simpl; [reflexivity |].
  now rewrite IH, andb_assoc.
Qed.

Lemma rstrip_all_space (s : string) :
  all_chars Py.isspace s = true -> Py.rstrip s = "".
Proof.
  induction s as [|c s IH]; cbn [all_chars Py.rstrip]; [reflexivity |].
  intros H. apply andb_true_iff in H. destruct H as [Hc Hs].
  now rewrite (IH Hs), Hc.
Qed.

Lemma strip_empty_iff (s : string) :
  Py.strip s = "" <-> all_chars Py.isspace s = true.
Proof.
  split.
  - intros H. destruct (strip_margins s) as (pre & post & Hs & Hpre & Hpost).
    rewrite H, append_nil_l in Hs. rewrite Hs, all_chars_app.
    now rewrite Hpre, Hpost.
  - intros H. unfold Py.strip. now rewrite (rstrip_all_space s H).
Qed.

(** X18. The planner rejects exactly the queries that have no character
    other than whitespace, the empty query among them: it sets the error
    to ["Empty query received."] for those and clears it for all
    others. *)
Theorem planner_rejects_blank_queries (state : AgentState) :
  error (planner_node state)
  = if all_chars Py.isspace (current_query state)
    then "Empty query received." else "".
Proof.
  rewrite planner_error.
  destruct (all_chars Py.isspace (current_query state)) eqn:E.
  - apply strip_empty_iff in E. now rewrite E.
  - destruct (Py.truthy (Py.strip (current_query state))) eqn:Et;
      [reflexivity |].
    apply truthy_false, strip_empty_iff in Et. congruence.
Qed.

(** X19. A block without a word character (an empty block, or one of
    punctuation and whitespace only) is never returned, whatever the
    query is: a corpus made of such blocks only, like the single empty
    block an empty file gives, answers every search with nothing. *)
Theorem search_skips_blocks_without_words
    (SOURCES : list string) (query : string) :
  Forall (fun block =>
            all_chars (fun c => negb (Py.isword c)) block = true) SOURCES ->
  search_sources SOURCES query = [].
Proof.
  intros H. apply search_sources_nil_iff.
  eapply Forall_impl; [exact H |]. intros block Hb. cbn beta in *.
  apply tokenize_nil_iff in Hb. rewrite Hb.
  apply intersection_empty_r_L.
Qed.

Lemma search_skips_blocks_without_words_witness :
  search_sources [""; " -- ?! "] "what is this?" = [].
Proof.
  apply (search_skips_blocks_without_words [""; " -- ?! "] "what is this?").
  constructor; [reflexivity |]. constructor; [vm_compute; reflexivity |].
  constructor.
Defined.

Lemma tokens_are_lower_case_words_witness :
  "hello" <> "" /\ all_chars Py.isword "hello" = true
  /\ Py.lower "hello" = "hello".
Proof.
  apply (tokens_are_lower_case_words "Hello, World!" "hello").
  unfold tokenize. apply elem_of_list_to_set. vm_compute. left.
Defined.
